(** * management/web_update.py: which domains get a web site, and the nginx
    configuration generated for them.

    The Python module is embedded function by function.  Pure helpers are
    Rocq functions on [string]; the functions that touch the disk or run
    external programs live in a small state-and-exception monad over a model
    of the file system plus the log of the external commands run so far. *)

From Stdlib Require Import Ascii String List Sorting.Permutation.
From stdpp Require Import base option list sorting gmap strings.

Local Open Scope string_scope.

(** ** Environment and inputs supplied by the other modules *)

(** [env] is the box's configuration dictionary; this module reads exactly
    three of its keys. *)
Record Env := mkEnv {
  PRIMARY_HOSTNAME : string;
  STORAGE_ROOT : string;
  CSR_COUNTRY : string
}.

(** A value of the custom DNS table returned by [get_custom_dns_config]: the
    code distinguishes [isinstance(value, str)] from [isinstance(value, dict)];
    a dict maps record types ("A", "AAAA", ...) to values. *)
Inductive dns_value :=
  | DnsStr (s : string)
  | DnsDict (d : gmap string string).

(** ** get_web_domains *)

(** The three-way disjunction of lines 30-32: the override sends the domain
    to another machine. *)
Definition points_elsewhere (value : dns_value) : bool :=
  match value with
  | DnsStr s => bool_decide (s ≠ "local")
  | DnsDict d =>
      match d !! "A" with
      | Some a => bool_decide (a ≠ "local")
      | None => false
      end
      || match d !! "AAAA" with
         | Some a => bool_decide (a ≠ "local")
         | None => false
         end
  end.

(** One iteration of [for domain, value in dns.items()]. *)
Definition dns_step (domains : gset string) (item : string * dns_value)
    : gset string :=
  let '(domain, value) := item in
  if bool_decide (domain ∈ domains) then
    if points_elsewhere value then domains ∖ {[ domain ]} else domains
  else domains.

(** Modelled from the spec: [sort_domains] of utils.py is not part of the
    sources at hand.  The spec asks for the primary hostname forced first and
    the remainder in a deterministic secondary order, lexicographic here. *)
Definition sort_domains (domains : gset string) (env : Env) : list string :=
  (if bool_decide (PRIMARY_HOSTNAME env ∈ domains)
   then [PRIMARY_HOSTNAME env] else [])
  ++ merge_sort String.le (elements (domains ∖ {[ PRIMARY_HOSTNAME env ]})).

(** [mail_domains] is the result of [get_mail_domains(env)] and [dns] the
    result of [get_custom_dns_config(env)]. *)
Definition get_web_domains (env : Env) (mail_domains : gset string)
    (dns : gmap string dns_value) : list string :=
  let domains : gset string := ∅ in
  let domains := domains ∪ {[ PRIMARY_HOSTNAME env ]} in
  let domains := domains ∪ mail_domains in
  let domains := foldl dns_step domains (map_to_list dns) in
  sort_domains domains env.

(** What the spec calls an override that is "exactly the local sentinel". *)
Definition is_local (value : dns_value) : Prop :=
  match value with
  | DnsStr s => s = "local"
  | DnsDict d =>
      (∀ a, d !! "A" = Some a → a = "local")
      ∧ (∀ a, d !! "AAAA" = Some a → a = "local")
  end.

(** ** Strings: the Python operations the module uses *)

Definition LF : string := String (ascii_of_nat 10) "".
Definition TAB : string := String (ascii_of_nat 9) "".

(** What reading a file in text mode makes of its contents: a carriage
    return, alone or followed by a line feed, is read as one line feed. *)
Fixpoint universal_newlines (s : string) : string :=
  match s with
  | "" => ""
  | String c s' =>
      if bool_decide (c = ascii_of_nat 13) then
        String (ascii_of_nat 10)
          match s' with
          | String c' s'' =>
              if bool_decide (c' = ascii_of_nat 10) then universal_newlines s''
              else universal_newlines s'
          | "" => ""
          end
      else String c (universal_newlines s')
  end.

Fixpoint str_drop (n : nat) (s : string) : string :=
  match n, s with
  | S k, String _ s' => str_drop k s'
  | _, _ => s
  end.

(** [old in s]. *)
Fixpoint str_contains (old s : string) : bool :=
  String.prefix old s
  || match s with
     | "" => false
     | String _ s' => str_contains old s'
     end.

Fixpoint char_in (c : ascii) (s : string) : bool :=
  match s with
  | "" => false
  | String a s' => bool_decide (a = c) || char_in c s'
  end.

(** [s.replace(old, new)] scans left to right and replaces the
    non-overlapping occurrences; [skip] counts the characters of a match
    still to be passed over. *)
Fixpoint str_replace_go (old new : string) (skip : nat) (s : string) : string :=
  match s with
  | "" => ""
  | String c s' =>
      match skip with
      | S k => str_replace_go old new k s'
      | O =>
          if String.prefix old s
          then new +:+ str_replace_go old new (String.length old - 1) s'
          else String c (str_replace_go old new 0 s')
      end
  end.

(** With an empty [old] Python puts [new] before every character and at the
    end. *)
Fixpoint str_interleave (new s : string) : string :=
  match s with
  | "" => new
  | String c s' => new +:+ String c (str_interleave new s')
  end.

Definition str_replace (s old new : string) : string :=
  match old with
  | "" => str_interleave new s
  | _ => str_replace_go old new 0 s
  end.

(** [re.split("(" + pat + ")", s)] for a literal, non-empty [pat]: the pieces
    between the matches, with every match kept as a piece of its own (the
    pattern is one capture group). *)
Fixpoint re_split_go (pat : string) (skip : nat) (cur s : string)
    : list string :=
  match s with
  | "" => [cur]
  | String c s' =>
      match skip with
      | S k => re_split_go pat k cur s'
      | O =>
          if String.prefix pat s
          then cur :: pat :: re_split_go pat (String.length pat - 1) "" s'
          else re_split_go pat 0 (cur +:+ String c "") s'
      end
  end.

Definition re_split_group (pat s : string) : list string :=
  re_split_go pat 0 "" s.

(** ** Paths (posixpath) *)

Definition starts_with_sep (s : string) : bool :=
  match s with
  | String c _ => bool_decide (c = "/"%char)
  | "" => false
  end.

Fixpoint ends_with_sep (s : string) : bool :=
  match s with
  | "" => false
  | String c "" => bool_decide (c = "/"%char)
  | String _ s' => ends_with_sep s'
  end.

(** One round of the loop of [posixpath.join]. *)
Definition join_step (path b : string) : string :=
  if starts_with_sep b then b
  else if bool_decide (path = "") || ends_with_sep path then path +:+ b
  else path +:+ "/" +:+ b.

Definition os_path_join (a : string) (p : list string) : string :=
  foldl join_step a p.

Fixpoint drop_until_sep (cs : list ascii) : list ascii :=
  match cs with
  | [] => []
  | c :: cs' => if bool_decide (c = "/"%char) then cs else drop_until_sep cs'
  end.

Fixpoint drop_seps (cs : list ascii) : list ascii :=
  match cs with
  | [] => []
  | c :: cs' => if bool_decide (c = "/"%char) then drop_seps cs' else cs
  end.

(** [posixpath.dirname]: everything up to the last separator, and then that
    separator and the ones before it stripped unless nothing else is left. *)
Definition os_path_dirname (p : string) : string :=
  let head_rev := drop_until_sep (rev (list_ascii_of_string p)) in
  match drop_seps head_rev with
  | [] => string_of_list_ascii (rev head_rev)
  | stripped => string_of_list_ascii (rev stripped)
  end.

(** ** The world: files on disk and external commands *)

Inductive node :=
  | File (content : string)
  | Dir.

Global Instance node_eq_dec : EqDecision node.
Proof. solve_decision. Defined.

(** The disk maps a path to what is there.  Paths are compared as strings. *)
Record World := mkWorld {
  disk : gmap string node;
  calls : list (list string)   (* argv of every [shell] call, oldest first *)
}.

Inductive exn :=
  | IOError (path : string)
  | OSError (path : string)
  | CalledProcessError (argv : list string)
  | YAMLError (path : string)
  | TypeError
  | KeyError (key : string)
  | IndexError.

(** A document as rtyaml.load returns it.  A mapping is kept by its string
    keys: the module only looks strings up in it. *)
#[warnings="-register-all"]
Inductive yaml :=
  | YNull
  | YBool (b : bool)
  | YNum (text : string)
  | YStr (s : string)
  | YSeq (items : list yaml)
  | YMap (entries : gmap string yaml).

(** [key in container] for a string [key]: a key of a mapping, an element of
    a sequence, a substring of a string; [None] when Python raises TypeError
    (the container is None, a boolean or a number). *)
Definition py_in (key : string) (container : yaml) : option bool :=
  match container with
  | YMap entries => Some (bool_decide (is_Some (entries !! key)))
  | YSeq items =>
      Some (existsb (λ item, match item with
                             | YStr s => bool_decide (s = key)
                             | _ => false
                             end) items)
  | YStr s => Some (str_contains key s)
  | _ => None
  end.

(** [container[key]] for a string [key]. *)
Definition py_getitem (container : yaml) (key : string) : exn + yaml :=
  match container with
  | YMap entries =>
      match entries !! key with
      | Some v => inr v
      | None => inl (KeyError key)
      end
  | _ => inl TypeError
  end.

(** A computation either raises or returns; the effects it had until then
    stay either way. *)
Definition M (A : Type) : Type := World → (exn + A) * World.

Global Instance M_ret : MRet M := λ A x w, (inr x, w).
Global Instance M_bind : MBind M := λ A B f m w,
  match m w with
  | (inl e, w') => (inl e, w')
  | (inr x, w') => f x w'
  end.

Definition raise {A} (e : exn) : M A := λ w, (inl e, w).
Definition get_disk : M (gmap string node) := λ w, (inr (disk w), w).

(** What this module gets from the other modules, from the Python library
    and from the operating system, none of it in the sources at hand. *)
Class Externals := {
  (** utils.safe_domain_name *)
  safe_domain_name : string → string;
  (** whats_next.check_certificate(domain, certificate, None) *)
  check_certificate : string → string → gmap string node → string;
  (** running a program: whether it exited with status zero, and the disk it
      leaves *)
  run_command : list string → gmap string node → bool * gmap string node;
  (** os.makedirs(path, exist_ok=True); [None] when it raises *)
  os_makedirs : string → gmap string node → option (gmap string node);
  (** rtyaml.load on the text of the overlay file; [None] when it raises *)
  rtyaml_load : string → option yaml;
  (** str() of a value that is not a string *)
  py_str : yaml → string;
  (** whether the operating system lets the process create or truncate a
      file at a path (permissions, read-only file systems) *)
  os_writable : string → gmap string node → bool;
  (** __file__ of this module *)
  module_file : string
}.

Definition os_path_exists (p : string) (d : gmap string node) : bool :=
  bool_decide (is_Some (d !! p)).

(** [open(p).read()]: text mode, so with the line ends translated. *)
Definition read_file (p : string) : M string := λ w,
  match disk w !! p with
  | Some (File c) => (inr (universal_newlines c), w)
  | _ => (inl (IOError p), w)
  end.

(** The directory a new file at [p] goes into is there; a path without a
    directory part is in the working directory. *)
Definition parent_is_dir (p : string) (d : gmap string node) : bool :=
  bool_decide (os_path_dirname p = "")
  || bool_decide (d !! os_path_dirname p = Some Dir).

Section with_externals.
Context `{Externals}.

(** [with open(p, "w") as f: f.write(c)]: the open raises when a directory
    is at [p], when the directory of [p] is missing or when the process may
    not write there; on this system the text is stored as it is. *)
Definition write_file (p c : string) : M unit := λ w,
  match disk w !! p with
  | Some Dir => (inl (IOError p), w)
  | _ =>
      if parent_is_dir p (disk w) && os_writable p (disk w)
      then (inr tt, mkWorld (<[p := File c]> (disk w)) (calls w))
      else (inl (IOError p), w)
  end.

(** [shell('check_call', argv)]: the call is made, and a non-zero exit
    raises. *)
Definition shell_check_call (argv : list string) : M unit := λ w,
  let '(ok, d) := run_command argv (disk w) in
  let w' := mkWorld d (calls w ++ [argv]) in
  if ok then (inr tt, w') else (inl (CalledProcessError argv), w').

Definition makedirs (p : string) : M unit := λ w,
  match os_makedirs p (disk w) with
  | Some d => (inr tt, mkWorld d (calls w))
  | None => (inl (OSError p), w)
  end.

(** ** get_web_root *)

Definition get_web_root (domain : string) (env : Env)
    (d : gmap string node) : string :=
  let root := os_path_join (STORAGE_ROOT env) ["www"; safe_domain_name domain] in
  if os_path_exists root d then root
  else os_path_join (STORAGE_ROOT env) ["www"; safe_domain_name "default"].

(** ** get_domain_ssl_files *)

Definition ssl_private_key_path (env : Env) : string :=
  os_path_join (STORAGE_ROOT env) ["ssl/ssl_private_key.pem"].
Definition ssl_certificate_primary_path (env : Env) : string :=
  os_path_join (STORAGE_ROOT env) ["ssl/ssl_certificate.pem"].
Definition ssl_csr_primary_path (env : Env) : string :=
  os_path_join (STORAGE_ROOT env) ["ssl/ssl_cert_sign_req.csr"].
Definition alt_key_path (domain : string) (env : Env) : string :=
  os_path_join (STORAGE_ROOT env)
    ["ssl/" +:+ safe_domain_name domain +:+ "/private_key.pem"].
Definition domain_certificate_path (domain : string) (env : Env) : string :=
  os_path_join (STORAGE_ROOT env)
    ["ssl/" +:+ safe_domain_name domain +:+ "/ssl_certificate.pem"].
Definition domain_csr_path (domain : string) (env : Env) : string :=
  os_path_join (STORAGE_ROOT env)
    ["ssl/" +:+ safe_domain_name domain +:+ "/certificate_signing_request.csr"].

Definition get_domain_ssl_files (domain : string) (env : Env)
    (d : gmap string node) : string * string * string :=
  let ssl_key := ssl_private_key_path env in
  let ssl_key_is_alt := false in
  let alt_key := alt_key_path domain env in
  let '(ssl_key, ssl_key_is_alt) :=
    if bool_decide (domain ≠ PRIMARY_HOSTNAME env) && os_path_exists alt_key d
    then (alt_key, true) else (ssl_key, ssl_key_is_alt) in
  let ssl_certificate_primary := ssl_certificate_primary_path env in
  let ssl_certificate :=
    if bool_decide (domain = PRIMARY_HOSTNAME env) then ssl_certificate_primary
    else
      let ssl_certificate := domain_certificate_path domain env in
      if negb ssl_key_is_alt then
        if bool_decide (check_certificate domain ssl_certificate_primary d = "OK")
        then ssl_certificate_primary else ssl_certificate
      else ssl_certificate in
  let csr_path :=
    if bool_decide (domain = PRIMARY_HOSTNAME env) then ssl_csr_primary_path env
    else domain_csr_path domain env in
  (ssl_key, ssl_certificate, csr_path).

(** ** ensure_ssl_certificate_exists *)

Definition csr_command (domain ssl_key csr_path : string) (env : Env)
    : list string :=
  ["openssl"; "req"; "-new";
   "-key"; ssl_key;
   "-out"; csr_path;
   "-subj"; "/C=" +:+ CSR_COUNTRY env +:+ "/ST=/L=/O=/CN=" +:+ domain].

Definition x509_command (ssl_key ssl_certificate csr_path : string)
    : list string :=
  ["openssl"; "x509"; "-req";
   "-days"; "365";
   "-in"; csr_path;
   "-signkey"; ssl_key;
   "-out"; ssl_certificate].

Definition ensure_ssl_certificate_exists
    (domain ssl_key ssl_certificate csr_path : string) (env : Env) : M unit :=
  if bool_decide (domain = PRIMARY_HOSTNAME env) then mret tt
  else if bool_decide (ssl_certificate
                       = os_path_join (STORAGE_ROOT env) ["ssl/ssl_certificate.pem"])
  then mret tt
  else
    d ← get_disk;
    if os_path_exists ssl_certificate d then mret tt
    else
      _ ← makedirs (os_path_dirname ssl_certificate);
      _ ← shell_check_call (csr_command domain ssl_key csr_path env);
      shell_check_call (x509_command ssl_key ssl_certificate csr_path).

(** ** make_domain_config *)

Definition directives_marker : string := "# ADDITIONAL DIRECTIVES HERE" +:+ LF.

(** ["\tlocation / {\n\t\tproxy_pass %s;\n\t}\n" % target] *)
Definition proxy_block (target : string) : string :=
  TAB +:+ "location / {" +:+ LF
  +:+ TAB +:+ TAB +:+ "proxy_pass " +:+ target +:+ ";" +:+ LF
  +:+ TAB +:+ "}" +:+ LF.

(** The four [replace] calls of lines 84-88, in their order. *)
Definition substitute (template domain root ssl_key ssl_certificate : string)
    : string :=
  let nginx_conf := template in
  let nginx_conf := str_replace nginx_conf "$HOSTNAME" domain in
  let nginx_conf := str_replace nginx_conf "$ROOT" root in
  let nginx_conf := str_replace nginx_conf "$SSL_KEY" ssl_key in
  let nginx_conf := str_replace nginx_conf "$SSL_CERTIFICATE" ssl_certificate in
  nginx_conf.

(** [nginx_conf_parts[1] += block] *)
Definition append_to_second (parts : list string) (block : string)
    : M (list string) :=
  match parts !! 1 with
  | Some p => mret (<[1 := p +:+ block]> parts)
  | None => raise IndexError
  end.

(** [container[key]] as a step of a computation. *)
Definition subscript (container : yaml) (key : string) : M yaml :=
  match py_getitem container key with
  | inr v => mret v
  | inl e => raise e
  end.

(** What ["%s" % value] puts in for the value. *)
Definition percent_s (value : yaml) : string :=
  match value with
  | YStr s => s
  | _ => py_str value
  end.

(** Lines 92-98: the user customizations read from www/custom.yaml. *)
Definition add_customizations (domain : string) (env : Env)
    (nginx_conf_parts : list string) : M (list string) :=
  let nginx_conf_custom_fn :=
    os_path_join (STORAGE_ROOT env) ["www/custom.yaml"] in
  d ← get_disk;
  if os_path_exists nginx_conf_custom_fn d then
    text ← read_file nginx_conf_custom_fn;
    match rtyaml_load text with
    | None => raise (YAMLError nginx_conf_custom_fn)
    | Some yaml =>
        match py_in domain yaml with
        | None => raise TypeError
        | Some false => mret nginx_conf_parts
        | Some true =>
            yaml ← subscript yaml domain;
            match py_in "proxy" yaml with
            | None => raise TypeError
            | Some false => mret nginx_conf_parts
            | Some true =>
                target ← subscript yaml "proxy";
                append_to_second nginx_conf_parts
                  (proxy_block (percent_s target))
            end
        end
    end
  else mret nginx_conf_parts.

Definition make_domain_config (domain template : string) (env : Env)
    : M string :=
  d ← get_disk;
  let root := get_web_root domain env d in
  let '(ssl_key, ssl_certificate, csr_path) := get_domain_ssl_files domain env d in
  _ ← ensure_ssl_certificate_exists domain ssl_key ssl_certificate csr_path env;
  let nginx_conf := substitute template domain root ssl_key ssl_certificate in
  let nginx_conf_parts := re_split_group directives_marker nginx_conf in
  nginx_conf_parts ← add_customizations domain env nginx_conf_parts;
  let nginx_conf := String.concat "" nginx_conf_parts in
  mret nginx_conf.

(** ** do_web_update *)

Definition nginx_conf_fn : string := "/etc/nginx/conf.d/local.conf".
Definition reload_command : list string := ["/usr/sbin/service"; "nginx"; "reload"].

(** The loop of lines 47-48. *)
Fixpoint add_domain_configs (domains : list string) (template : string)
    (env : Env) (nginx_conf : string) : M string :=
  match domains with
  | [] => mret nginx_conf
  | domain :: rest =>
      block ← make_domain_config domain template env;
      add_domain_configs rest template env (nginx_conf +:+ block)
  end.

(** Lines 43-48: the text of the configuration file. *)
Definition build_nginx_conf (env : Env) (mail_domains : gset string)
    (dns : gmap string dns_value) : M string :=
  nginx_conf ← read_file
    (os_path_join (os_path_dirname module_file) ["../conf/nginx-top.conf"]);
  template ← read_file
    (os_path_join (os_path_dirname module_file) ["../conf/nginx.conf"]);
  add_domain_configs (get_web_domains env mail_domains dns) template env
    nginx_conf.

(** Lines 50-67: write the file and reload nginx, unless nothing changed. *)
Definition install_nginx_conf (nginx_conf : string) : M string :=
  d ← get_disk;
  unchanged ←
    (if os_path_exists nginx_conf_fn d then
       old ← read_file nginx_conf_fn;
       mret (bool_decide (old = nginx_conf))
     else mret false);
  if (unchanged : bool) then mret ""
  else
    _ ← write_file nginx_conf_fn nginx_conf;
    _ ← shell_check_call reload_command;
    mret ("web updated" +:+ LF).

Definition do_web_update (env : Env) (mail_domains : gset string)
    (dns : gmap string dns_value) : M string :=
  nginx_conf ← build_nginx_conf env mail_domains dns;
  install_nginx_conf nginx_conf.

End with_externals.

(** The template of the spec's rendering examples. *)
Definition sample_template : string :=
  "$HOSTNAME|$ROOT|$SSL_KEY|$SSL_CERTIFICATE" +:+ LF
  +:+ "# ADDITIONAL DIRECTIVES HERE" +:+ LF +:+ "tail".

(** ** Vocabulary of the statements *)

(** The external commands run between two worlds. *)
Definition new_calls (w w' : World) : list (list string) :=
  drop (length (calls w)) (calls w').

(** A certificate has to be made: the three early returns of
    [ensure_ssl_certificate_exists] are all passed. *)
Definition must_provision (domain ssl_certificate : string)
    (env : Env) (d : gmap string node) : Prop :=
  domain ≠ PRIMARY_HOSTNAME env
  ∧ ssl_certificate ≠ ssl_certificate_primary_path env
  ∧ os_path_exists ssl_certificate d = false.

(** "It invokes the tool iff a certificate has to be made, returns without
    error in every other case, and when it invokes the tool it does so
    exactly twice, for the CSR and then for the certificate." *)
Definition provisions_iff_needed_and_twice `{Externals}
    (domain ssl_key ssl_certificate csr_path : string) (env : Env)
    (w : World) : Prop :=
  let '(r, w') :=
    ensure_ssl_certificate_exists domain ssl_key ssl_certificate csr_path env w in
  (new_calls w w' ≠ [] ↔ must_provision domain ssl_certificate env (disk w))
  ∧ (¬ must_provision domain ssl_certificate env (disk w)
     → r = inr tt ∧ new_calls w w' = [])
  ∧ (new_calls w w' ≠ []
     → new_calls w w' = [csr_command domain ssl_key csr_path env;
                         x509_command ssl_key ssl_certificate csr_path]).

(** Where the user customizations are read from. *)
Definition custom_yaml_path (env : Env) : string :=
  os_path_join (STORAGE_ROOT env) ["www/custom.yaml"].

(** The overlay file is there and gives the domain a proxy target: the
    document has the domain, the domain's entry has "proxy", and [target] is
    the text of that value. *)
Definition overlay_has_proxy `{Externals} (domain : string) (env : Env)
    (d : gmap string node) (target : string) : Prop :=
  ∃ text yaml directives value,
    d !! custom_yaml_path env = Some (File text)
    ∧ rtyaml_load (universal_newlines text) = Some yaml
    ∧ py_in domain yaml = Some true
    ∧ py_getitem yaml domain = inr directives
    ∧ py_in "proxy" directives = Some true
    ∧ py_getitem directives "proxy" = inr value
    ∧ target = percent_s value.

(** No overlay file, or one whose document does not have the domain, or has
    it with an entry that does not have "proxy". *)
Definition overlay_has_no_proxy `{Externals} (domain : string) (env : Env)
    (d : gmap string node) : Prop :=
  d !! custom_yaml_path env = None
  ∨ ∃ text yaml,
      d !! custom_yaml_path env = Some (File text)
      ∧ rtyaml_load (universal_newlines text) = Some yaml
      ∧ (py_in domain yaml = Some false
         ∨ ∃ directives,
             py_in domain yaml = Some true
             ∧ py_getitem yaml domain = inr directives
             ∧ py_in "proxy" directives = Some false).

(** No external program and no directory creation alters what is at the
    path [p] once something is there. *)
Definition externals_keep `{Externals} (p : string) : Prop :=
  (∀ argv d, is_Some (d !! p) → (run_command argv d).2 !! p = d !! p)
  ∧ (∀ q d d', is_Some (d !! p) → os_makedirs q d = Some d' → d' !! p = d !! p).

(** Reading the configuration file gives the text [nginx_conf]. *)
Definition conf_is_current (nginx_conf : string) (d : gmap string node)
    : Prop :=
  ∃ stored,
    d !! "/etc/nginx/conf.d/local.conf" = Some (File stored)
    ∧ universal_newlines stored = nginx_conf.

(** The computation [m] leaves what is at the path [p] as it is. *)
Definition keeps {A} (p : string) (m : M A) : Prop :=
  ∀ w, is_Some (disk w !! p) → disk (m w).2 !! p = disk w !! p.

(** No occurrence of [pat] in [s] starts inside its first [n] characters. *)
Definition no_match_before (pat s : string) (n : nat) : Prop :=
  ∀ i, i < n → String.prefix pat (str_drop i s) = false.

(** "For the example template and example.com without an overlay entry the
    result is example.com|<root>|<key>|<cert>, the marker line and the tail,
    with the resolved root, key and certificate." *)
Definition renders_sample_plainly `{Externals} (env : Env) (w : World)
    : Prop :=
  let root := get_web_root "example.com" env (disk w) in
  let '(ssl_key, ssl_certificate, _) :=
    get_domain_ssl_files "example.com" env (disk w) in
  (make_domain_config "example.com" sample_template env w).1
  = inr ("example.com|" +:+ root +:+ "|" +:+ ssl_key +:+ "|"
         +:+ ssl_certificate +:+ LF +:+ directives_marker +:+ "tail").

(** The two files do_web_update reads, next to the module. *)
Definition nginx_top_conf_path `{Externals} : string :=
  os_path_join (os_path_dirname module_file) ["../conf/nginx-top.conf"].
Definition nginx_template_path `{Externals} : string :=
  os_path_join (os_path_dirname module_file) ["../conf/nginx.conf"].

(** The two places a domain's document root can be. *)
Definition domain_web_root `{Externals} (domain : string) (env : Env) : string :=
  os_path_join (STORAGE_ROOT env) ["www"; safe_domain_name domain].
Definition default_web_root `{Externals} (env : Env) : string :=
  os_path_join (STORAGE_ROOT env) ["www"; safe_domain_name "default"].

(** An invocation of openssl. *)
Definition is_openssl (argv : list string) : Prop := head argv = Some "openssl".

(** The computation [m] only adds to the log of commands, and every command
    it adds satisfies [P]. *)
Definition only_runs {A} (P : list string → Prop) (m : M A) : Prop :=
  ∀ w, ∃ l : list (list string), calls (m w).2 = (calls w ++ l)%list ∧ Forall P l.

(** "For the example template and an overlay that gives example.com the
    proxy target http://localhost:8080, the proxy block comes right after the
    marker line of the template and before its tail, and the rest is
    example.com|<root>|<key>|<cert> with the resolved root, key and
    certificate." *)
Definition renders_sample_with_proxy `{Externals} (env : Env) (w : World)
    : Prop :=
  let root := get_web_root "example.com" env (disk w) in
  let '(ssl_key, ssl_certificate, _) :=
    get_domain_ssl_files "example.com" env (disk w) in
  (make_domain_config "example.com" sample_template env w).1
  = inr ("example.com|" +:+ root +:+ "|" +:+ ssl_key +:+ "|"
         +:+ ssl_certificate +:+ LF +:+ directives_marker
         +:+ proxy_block "http://localhost:8080" +:+ "tail").


(** ** Concrete scenarios *)

Definition box_env : Env := mkEnv "box.example.com" "/home/user-data" "US".

(** The primary hostname itself is served from another machine. *)
Definition dns_primary_elsewhere : gmap string dns_value :=
  {[ "box.example.com" := DnsStr "203.0.113.7" ]}.

Definition dns_sample : gmap string dns_value :=
  {[ "a.org" := DnsStr "203.0.113.7";
     "zed.net" := DnsDict {[ "A" := "local" ]} ]}.

(** Directory creation on the flat disk: refused where a file is. *)
Definition simple_makedirs (p : string) (d : gmap string node)
    : option (gmap string node) :=
  match d !! p with
  | Some (File _) => None
  | _ => Some (<[p := Dir]> d)
  end.

(** openssl and service always succeed and leave the disk alone; the primary
    certificate covers nothing else; no overlay entries. *)
Definition quiet_externals : Externals := {|
  safe_domain_name := id;
  check_certificate := λ _ _ _, "no";
  run_command := λ _ d, (true, d);
  os_makedirs := simple_makedirs;
  rtyaml_load := λ _, Some (YMap ∅);
  py_str := λ _, "";
  os_writable := λ _ _, true;
  module_file := "/opt/mailinabox/management/web_update.py"
|}.

(** As above, but every external program exits with a non-zero status. *)
Definition failing_externals : Externals := {|
  safe_domain_name := id;
  check_certificate := λ _ _ _, "no";
  run_command := λ _ d, (false, d);
  os_makedirs := simple_makedirs;
  rtyaml_load := λ _, Some (YMap ∅);
  py_str := λ _, "";
  os_writable := λ _ _, true;
  module_file := "/opt/mailinabox/management/web_update.py"
|}.

(** As [quiet_externals], with the overlay of the spec's example. *)
Definition proxy_externals : Externals := {|
  safe_domain_name := id;
  check_certificate := λ _ _ _, "no";
  run_command := λ _ d, (true, d);
  os_makedirs := simple_makedirs;
  rtyaml_load := λ _,
    Some (YMap {[ "example.com" :=
                    YMap {[ "proxy" := YStr "http://localhost:8080" ]} ]});
  py_str := λ _, "";
  os_writable := λ _ _, true;
  module_file := "/opt/mailinabox/management/web_update.py"
|}.

Definition empty_world : World := mkWorld ∅ [].

(** The two templates next to the module, and nothing else. *)
Definition template_world : World :=
  mkWorld
    {[ "/opt/mailinabox/management/../conf/nginx-top.conf" := File ("top" +:+ LF);
       "/opt/mailinabox/management/../conf/nginx.conf" := File sample_template;
       "/etc/nginx/conf.d" := Dir ]}
    [].

(** The text do_web_update builds on [template_world] for the box alone, and
    the world its first run leaves when the programs succeed. *)
Definition quiet_text : string :=
  match (@build_nginx_conf quiet_externals box_env ∅ ∅ template_world).1 with
  | inr nginx_conf => nginx_conf
  | inl _ => ""
  end.

Definition failing_text : string :=
  match (@build_nginx_conf failing_externals box_env ∅ ∅ template_world).1 with
  | inr nginx_conf => nginx_conf
  | inl _ => ""
  end.


(** A directory sits where the overlay file should be. *)
Definition overlay_dir_world : World :=
  mkWorld {[ "/home/user-data/www/custom.yaml" := Dir ]} [].

(** A directory sits where the configuration file should be. *)
Definition conf_dir_world : World :=
  mkWorld
    {[ "/opt/mailinabox/management/../conf/nginx-top.conf" := File ("top" +:+ LF);
       "/opt/mailinabox/management/../conf/nginx.conf" := File sample_template;
       "/etc/nginx/conf.d" := Dir;
       "/etc/nginx/conf.d/local.conf" := Dir ]}
    [].

(** example.com is the box itself, and the storage root has the marker line
    of the template in its name; the overlay file is on disk. *)
Definition marker_env : Env :=
  mkEnv "example.com" ("/srv/" +:+ directives_marker +:+ "x") "US".

Definition marker_overlay_world : World :=
  mkWorld {[ custom_yaml_path marker_env := File "example.com: ..." ]} [].




(** The directory of the configuration file is missing. *)
Definition no_conf_dir_world : World :=
  mkWorld
    {[ "/opt/mailinabox/management/../conf/nginx-top.conf" := File ("top" +:+ LF);
       "/opt/mailinabox/management/../conf/nginx.conf" := File sample_template ]}
    [].

(** A template without placeholders and without the marker line. *)
Definition static_template : string := "server { listen 80; }" +:+ LF.


(** example.com is the box itself, and the storage root has a placeholder of
    the template in its name. *)
Definition placeholder_env : Env := mkEnv "example.com" "/srv/$SSL_KEY" "US".

(** The overlay file is on disk (its text is what [proxy_externals] parses). *)
Definition overlay_world : World :=
  mkWorld {[ "/home/user-data/www/custom.yaml" := File "example.com: ..." ]} [].

(** ** The string and path helpers on small inputs *)

Example str_replace_twice :
  str_replace "a$ROOTb$ROOT$ROO" "$ROOT" "XY" = "aXYbXY$ROO".
Proof. reflexivity. Qed.

Example str_replace_no_overlap : str_replace "aaa" "aa" "b" = "ba".
Proof. reflexivity. Qed.

Example re_split_group_keeps_matches :
  re_split_group "ab" "xxabyyabab" = ["xx"; "ab"; "yy"; "ab"; ""; "ab"; ""].
Proof. reflexivity. Qed.

Example re_split_group_no_match : re_split_group "ab" "xx" = ["xx"].
Proof. reflexivity. Qed.

Example os_path_join_relative :
  os_path_join "/home/user-data" ["www"; "default"]
  = "/home/user-data/www/default".
Proof. reflexivity. Qed.

Example os_path_join_absolute :
  os_path_join "/home/user-data/" ["www"; "/default"] = "/default".
Proof. reflexivity. Qed.

Example os_path_dirname_nested : os_path_dirname "/a/b/c.pem" = "/a/b".
Proof. reflexivity. Qed.

Example os_path_dirname_root : os_path_dirname "//c.pem" = "//".
Proof. reflexivity. Qed.

Example get_web_domains_sample :
  get_web_domains box_env {[ "example.com"; "a.org"; "zed.net" ]} dns_sample
  = ["box.example.com"; "example.com"; "zed.net"].
Proof. vm_compute. reflexivity. Qed.

Lemma points_elsewhere_spec value :
  points_elsewhere value = false ↔ is_local value.
Proof.
  destruct value as [s|d]; simpl.
  - rewrite bool_decide_eq_false. split; [apply dec_stable | tauto].
  - rewrite orb_false_iff.
    destruct (d !! "A") as [a|], (d !! "AAAA") as [b|];
      rewrite ?bool_decide_eq_false; split.
    all: try (intros [Ha Hb]; split; intros x Hx; simplify_eq;
              first [ by apply dec_stable | done ]).
    all: intros [Ha Hb]; split; try done.
    all: try (intros Hn; apply Hn; by apply Ha).
    all: try (intros Hn; apply Hn; by apply Hb).
Qed.

(** Membership after the removal loop, for any list of items. *)
Lemma elem_of_foldl_dns_step (items : list (string * dns_value))
    (domains : gset string) (x : string) :
  x ∈ foldl dns_step domains items ↔
  x ∈ domains ∧ ∀ v, (x, v) ∈ items → points_elsewhere v = false.
Proof.
  revert domains. induction items as [|[d v] items IH]; intros domains; simpl.
  - split; [intros ?; split; [done|] | tauto].
    intros v Hv. by apply elem_of_nil in Hv.
  - rewrite IH. unfold dns_step.
    case_bool_decide as Hd.
    + destruct (points_elsewhere v) eqn:Hp.
      * rewrite elem_of_difference, elem_of_singleton. split.
        -- intros [[Hx Hne] Hall]. split; [done|].
           intros w [Heq|Hw]%elem_of_cons; [congruence | by apply Hall].
        -- intros [Hx Hall]. split; [split; [done|] |].
           ++ intros ->. specialize (Hall v). rewrite Hp in Hall.
              discriminate Hall. by left.
           ++ intros w Hw. apply Hall. by right.
      * split; intros [Hx Hall]; (split; [done|]).
        -- intros w [Heq|Hw]%elem_of_cons; [by simplify_eq | by apply Hall].
        -- intros w Hw. apply Hall. by right.
    + split; intros [Hx Hall]; (split; [done|]).
      * intros w [Heq|Hw]%elem_of_cons; [|by apply Hall]. by simplify_eq.
      * intros w Hw. apply Hall. by right.
Qed.

Lemma elem_of_sort_domains (domains : gset string) env (x : string) :
  x ∈ sort_domains domains env ↔ x ∈ domains.
Proof.
  unfold sort_domains. rewrite elem_of_app, merge_sort_Permutation.
  rewrite elem_of_elements, elem_of_difference, elem_of_singleton.
  case_bool_decide as Hp.
  - rewrite list_elem_of_singleton.
    destruct (decide (x = PRIMARY_HOSTNAME env)) as [->|]; tauto.
  - rewrite elem_of_nil. split; [tauto|]. intros Hx. right. split; [done|].
    by intros ->.
Qed.

(** C1: a domain is in the list returned by get_web_domains iff it is the
    primary hostname or a mail domain, and it has no entry in the DNS
    override table or its entry is the "local" sentinel (a plain "local", or
    a record whose A and AAAA entries, where present, are "local"). *)
Theorem get_web_domains_selects env (mail_domains : gset string)
    (dns : gmap string dns_value) (x : string) :
  x ∈ get_web_domains env mail_domains dns ↔
  (x = PRIMARY_HOSTNAME env ∨ x ∈ mail_domains)
  ∧ (dns !! x = None ∨ ∃ v, dns !! x = Some v ∧ is_local v).
Proof.
  unfold get_web_domains. rewrite elem_of_sort_domains, elem_of_foldl_dns_step.
  rewrite !elem_of_union, elem_of_singleton.
  split.
  - intros [[[Hx|Hx]|Hx] Hall].
    { by apply elem_of_empty in Hx. }
    all: (split; [tauto|]).
    all: destruct (dns !! x) as [v|] eqn:Hv; [right|by left].
    all: exists v; split; [done|]; apply points_elsewhere_spec, Hall.
    all: by apply elem_of_map_to_list.
  - intros [Hx Hov]. split; [tauto|].
    intros v Hv%elem_of_map_to_list. apply points_elsewhere_spec.
    destruct Hov as [Hn|(w & Hw & Hl)]; congruence.
Qed.

Lemma head_sort_domains (domains : gset string) env :
  PRIMARY_HOSTNAME env ∈ domains →
  head (sort_domains domains env) = Some (PRIMARY_HOSTNAME env).
Proof. intros Hp. unfold sort_domains. by rewrite bool_decide_eq_true_2. Qed.

(** C2, as stated, fails: a primary hostname whose DNS override points to
    another machine is removed like any other domain, so the list does not
    contain it. *)
Lemma primary_hostname_can_be_dropped :
  ¬ (PRIMARY_HOSTNAME box_env ∈ get_web_domains box_env ∅ dns_primary_elsewhere
     ∧ head (get_web_domains box_env ∅ dns_primary_elsewhere)
       = Some (PRIMARY_HOSTNAME box_env)).
Proof.
  assert (get_web_domains box_env ∅ dns_primary_elsewhere = []) as ->
    by (vm_compute; reflexivity).
  intros [Hin _]. by apply elem_of_nil in Hin.
Qed.

(** C2, amended: when the primary hostname has no entry in the DNS override
    table, or an entry that is the "local" sentinel, it is in the list
    returned by get_web_domains and it is the first element of that list. *)
Theorem get_web_domains_primary_first env (mail_domains : gset string)
    (dns : gmap string dns_value) :
  (dns !! PRIMARY_HOSTNAME env = None
   ∨ ∃ v, dns !! PRIMARY_HOSTNAME env = Some v ∧ is_local v) →
  PRIMARY_HOSTNAME env ∈ get_web_domains env mail_domains dns
  ∧ head (get_web_domains env mail_domains dns) = Some (PRIMARY_HOSTNAME env).
Proof.
  intros Hov.
  assert (PRIMARY_HOSTNAME env
          ∈ foldl dns_step (∅ ∪ {[PRIMARY_HOSTNAME env]} ∪ mail_domains)
              (map_to_list dns)) as Hin.
  { apply elem_of_foldl_dns_step.
    split; [rewrite !elem_of_union, elem_of_singleton; tauto|].
    intros v Hv%elem_of_map_to_list. apply points_elsewhere_spec.
    destruct Hov as [Hn|(u & Hu & Hl)]; congruence. }
  unfold get_web_domains. split.
  - by apply elem_of_sort_domains.
  - by apply head_sort_domains.
Qed.

Lemma get_web_domains_primary_first_witness :
  PRIMARY_HOSTNAME box_env ∈ get_web_domains box_env {[ "a.org" ]} dns_sample
  ∧ head (get_web_domains box_env {[ "a.org" ]} dns_sample)
    = Some (PRIMARY_HOSTNAME box_env).
Proof.
  apply (get_web_domains_primary_first box_env {[ "a.org" ]} dns_sample).
  left. vm_compute. reflexivity.
Defined.

(** ** Paths *)

Lemma str_length_app (a b : string) :
  String.length (a +:+ b) = String.length a + String.length b.
Proof.
  induction a as [|c a IH]; [done|].
  change (String c a +:+ b) with (String c (a +:+ b)). cbn. by rewrite IH.
Qed.

Lemma str_app_cons (c : ascii) (a b : string) :
  String c a +:+ b = String c (a +:+ b).
Proof. done. Qed.

Lemma str_app_nil_l (a : string) : "" +:+ a = a.
Proof. done. Qed.

Lemma str_app_assoc (a b c : string) : (a +:+ b) +:+ c = a +:+ (b +:+ c).
Proof.
  induction a as [|x a IH]; [done|]. rewrite !str_app_cons. by rewrite IH.
Qed.

Lemma str_app_nil_r (a : string) : a +:+ "" = a.
Proof.
  induction a as [|x a IH]; [done|]. rewrite str_app_cons. by rewrite IH.
Qed.

(** Joining the same directory with two relative names gives the same path
    only for the same name. *)
Lemma join_step_inj (a b1 b2 : string) :
  starts_with_sep b1 = false → starts_with_sep b2 = false →
  join_step a b1 = join_step a b2 → b1 = b2.
Proof.
  unfold join_step. intros -> ->.
  destruct (bool_decide (a = "") || ends_with_sep a).
  - apply String.app_inj.
  - intros Heq. apply String.app_inj in Heq. by apply String.app_inj in Heq.
Qed.

Section files.
Context `{Externals}.

Lemma domain_certificate_not_primary (domain : string) env :
  domain_certificate_path domain env ≠ ssl_certificate_primary_path env.
Proof.
  unfold domain_certificate_path, ssl_certificate_primary_path, os_path_join.
  cbn [foldl]. intros Heq. apply join_step_inj in Heq; [|done..].
  apply (f_equal String.length) in Heq.
  rewrite !str_length_app in Heq. cbn in Heq. lia.
Qed.

(** C7: for the primary hostname get_domain_ssl_files returns the shared
    private key, the primary certificate and the primary CSR path whatever
    is on disk, a per-domain key file included; for any other domain the key
    is the per-domain key file when that file exists and the shared key
    otherwise. *)
Theorem get_domain_ssl_files_primary env (d : gmap string node) :
  get_domain_ssl_files (PRIMARY_HOSTNAME env) env d
  = (ssl_private_key_path env, ssl_certificate_primary_path env,
     ssl_csr_primary_path env)
  ∧ ∀ domain, domain ≠ PRIMARY_HOSTNAME env →
      (get_domain_ssl_files domain env d).1.1
      = if os_path_exists (alt_key_path domain env) d
        then alt_key_path domain env else ssl_private_key_path env.
Proof.
  split.
  - unfold get_domain_ssl_files.
    rewrite (bool_decide_eq_false_2 (_ ≠ _)) by (intros Hn; by apply Hn).
    by rewrite bool_decide_eq_true_2.
  - intros domain Hne. unfold get_domain_ssl_files.
    rewrite (bool_decide_eq_true_2 (_ ≠ _)) by done.
    by destruct (os_path_exists (alt_key_path domain env) d).
Qed.

(** C8: for a domain other than the primary hostname, the certificate
    returned by get_domain_ssl_files is the primary certificate iff no
    per-domain key file exists and check_certificate answers "OK" for the
    domain and the primary certificate; otherwise it is the per-domain
    certificate path.  The CSR path is the per-domain one in all cases. *)
Theorem get_domain_ssl_files_other (domain : string) env
    (d : gmap string node) :
  domain ≠ PRIMARY_HOSTNAME env →
  let '(_, ssl_certificate, csr_path) := get_domain_ssl_files domain env d in
  (ssl_certificate = ssl_certificate_primary_path env
   ↔ os_path_exists (alt_key_path domain env) d = false
     ∧ check_certificate domain (ssl_certificate_primary_path env) d = "OK")
  ∧ (ssl_certificate ≠ ssl_certificate_primary_path env
     → ssl_certificate = domain_certificate_path domain env)
  ∧ csr_path = domain_csr_path domain env.
Proof.
  intros Hne. unfold get_domain_ssl_files.
  rewrite (bool_decide_eq_true_2 (_ ≠ _)) by done.
  rewrite !(bool_decide_eq_false_2 (domain = _)) by done.
  pose proof (domain_certificate_not_primary domain env) as Hp.
  destruct (os_path_exists (alt_key_path domain env) d); cbn.
  - split; [|done]. split; [done|]. by intros [? _].
  - case_bool_decide as Hc; (split; [|split; done]).
    + by split.
    + split; [done|]. by intros [_ ?].
Qed.

End files.

Lemma get_domain_ssl_files_primary_witness :
  "a.org" ≠ PRIMARY_HOSTNAME box_env
  ∧ (@get_domain_ssl_files quiet_externals "a.org" box_env ∅).1.1
    = if os_path_exists (@alt_key_path quiet_externals "a.org" box_env) ∅
      then @alt_key_path quiet_externals "a.org" box_env
      else ssl_private_key_path box_env.
Proof.
  split; [done|].
  apply (proj2 (@get_domain_ssl_files_primary quiet_externals box_env ∅) "a.org").
  done.
Defined.

Lemma get_domain_ssl_files_other_witness :
  "a.org" ≠ PRIMARY_HOSTNAME box_env
  ∧ let '(_, ssl_certificate, csr_path) :=
      @get_domain_ssl_files quiet_externals "a.org" box_env ∅ in
    (ssl_certificate = ssl_certificate_primary_path box_env
     ↔ os_path_exists (@alt_key_path quiet_externals "a.org" box_env) ∅ = false
       ∧ @check_certificate quiet_externals "a.org"
           (ssl_certificate_primary_path box_env) ∅ = "OK")
    ∧ (ssl_certificate ≠ ssl_certificate_primary_path box_env
       → ssl_certificate = @domain_certificate_path quiet_externals "a.org" box_env)
    ∧ csr_path = @domain_csr_path quiet_externals "a.org" box_env.
Proof.
  split; [done|].
  apply (@get_domain_ssl_files_other quiet_externals "a.org" box_env ∅).
  done.
Defined.

(** ** Certificate provisioning *)

Lemma new_calls_app (w : World) d (l : list (list string)) :
  new_calls w (mkWorld d (calls w ++ l)) = l.
Proof. unfold new_calls. cbn. by rewrite drop_app_length. Qed.

Section provisioning.
Context `{Externals}.

Lemma must_provision_dec domain ssl_certificate env (d : gmap string node) :
  must_provision domain ssl_certificate env d
  ∨ domain = PRIMARY_HOSTNAME env
  ∨ ssl_certificate = ssl_certificate_primary_path env
  ∨ os_path_exists ssl_certificate d = true.
Proof.
  unfold must_provision.
  destruct (decide (domain = PRIMARY_HOSTNAME env)); [tauto|].
  destruct (decide (ssl_certificate = ssl_certificate_primary_path env));
    [tauto|].
  destruct (os_path_exists ssl_certificate d); tauto.
Qed.

(** The early returns: nothing happens at all. *)
Lemma ensure_ssl_certificate_exists_skip
    domain ssl_key ssl_certificate csr_path env (w : World) :
  ¬ must_provision domain ssl_certificate env (disk w) →
  ensure_ssl_certificate_exists domain ssl_key ssl_certificate csr_path env w
  = (inr tt, w).
Proof.
  intros Hno. unfold ensure_ssl_certificate_exists.
  case_bool_decide as Hd; [done|].
  fold (ssl_certificate_primary_path env).
  case_bool_decide as Hc; [done|].
  unfold mbind, M_bind, get_disk.
  destruct (os_path_exists ssl_certificate (disk w)) eqn:He; [done|].
  exfalso. apply Hno. by split.
Qed.

(** Past the early returns: directories, then the CSR, then the
    certificate, stopping at the first step that fails. *)
Lemma ensure_ssl_certificate_exists_run
    domain ssl_key ssl_certificate csr_path env (w : World) :
  must_provision domain ssl_certificate env (disk w) →
  ensure_ssl_certificate_exists domain ssl_key ssl_certificate csr_path env w
  = match os_makedirs (os_path_dirname ssl_certificate) (disk w) with
    | None => (inl (OSError (os_path_dirname ssl_certificate)), w)
    | Some d1 =>
        let csr := csr_command domain ssl_key csr_path env in
        let x509 := x509_command ssl_key ssl_certificate csr_path in
        let '(ok1, d2) := run_command csr d1 in
        if ok1 then
          let '(ok2, d3) := run_command x509 d2 in
          (if ok2 then inr tt else inl (CalledProcessError x509),
           mkWorld d3 (calls w ++ [csr; x509]))
        else (inl (CalledProcessError csr), mkWorld d2 (calls w ++ [csr]))
    end.
Proof.
  intros (Hd & Hc & He). unfold ensure_ssl_certificate_exists.
  rewrite (bool_decide_eq_false_2 (domain = _)) by done.
  fold (ssl_certificate_primary_path env).
  rewrite (bool_decide_eq_false_2 (ssl_certificate = _)) by done.
  unfold mbind, M_bind, get_disk, makedirs, shell_check_call. rewrite He.
  destruct (os_makedirs _ _) as [d1|]; [|done]. cbn.
  destruct (run_command (csr_command _ _ _ _) d1) as [[] d2]; [|done]. cbn.
  destruct (run_command (x509_command _ _ _) d2) as [[] d3]; cbn;
    by rewrite <- app_assoc.
Qed.

(** C6, amended: ensure_ssl_certificate_exists runs no external command and
    returns without error, leaving everything as it was, unless the domain is
    not the primary hostname, the certificate path is not the primary
    certificate path and nothing exists at the certificate path.  In that
    case it creates the directory of the certificate; if that fails the
    error propagates and no command is run.  Otherwise it runs the CSR
    command (common name the domain, country from the configuration); if
    that command fails its failure propagates and it was the only command
    run; if it succeeds the second and last command self-signs the
    certificate from that CSR for 365 days, and its failure propagates too. *)
Theorem ensure_ssl_certificate_exists_commands
    domain ssl_key ssl_certificate csr_path env (w : World) :
  let '(r, w') :=
    ensure_ssl_certificate_exists domain ssl_key ssl_certificate csr_path env w in
  let csr := csr_command domain ssl_key csr_path env in
  let x509 := x509_command ssl_key ssl_certificate csr_path in
  (¬ must_provision domain ssl_certificate env (disk w)
   → r = inr tt ∧ w' = w)
  ∧ (must_provision domain ssl_certificate env (disk w) →
     match os_makedirs (os_path_dirname ssl_certificate) (disk w) with
     | None => (∃ e, r = inl e) ∧ w' = w
     | Some d1 =>
         if (run_command csr d1).1
         then new_calls w w' = [csr; x509]
              ∧ disk w' = (run_command x509 (run_command csr d1).2).2
              ∧ r = if (run_command x509 (run_command csr d1).2).1
                    then inr tt else inl (CalledProcessError x509)
         else new_calls w w' = [csr]
              ∧ disk w' = (run_command csr d1).2
              ∧ r = inl (CalledProcessError csr)
     end)
  ∧ csr = ["openssl"; "req"; "-new"; "-key"; ssl_key; "-out"; csr_path;
           "-subj"; "/C=" +:+ CSR_COUNTRY env +:+ "/ST=/L=/O=/CN=" +:+ domain]
  ∧ x509 = ["openssl"; "x509"; "-req"; "-days"; "365"; "-in"; csr_path;
            "-signkey"; ssl_key; "-out"; ssl_certificate].
Proof.
  destruct (must_provision_dec domain ssl_certificate env (disk w))
    as [Hmust|Hskip].
  - rewrite ensure_ssl_certificate_exists_run by done.
    destruct (os_makedirs _ _) as [d1|].
    + cbn zeta.
      destruct (run_command (csr_command _ _ _ _) d1) as [[] d2] eqn:H1.
      * destruct (run_command (x509_command _ _ _) d2) as [ok2 d3] eqn:H2.
        split; [tauto|]. split; [|done]. intros _. cbn. rewrite H2. cbn.
        by rewrite new_calls_app.
      * split; [tauto|]. split; [|done]. intros _. cbn.
        by rewrite new_calls_app.
    + split; [tauto|]. split; [|done]. intros _. eauto.
  - assert (¬ must_provision domain ssl_certificate env (disk w)) as Hno.
    { intros (Hd & Hc & He). destruct Hskip as [?|[?|?]]; congruence. }
    rewrite ensure_ssl_certificate_exists_skip by done.
    split; [done|]. split; [tauto|done].
Qed.

End provisioning.

(** C6, as stated, fails: when the CSR command exits with a non-zero status
    the failure propagates at once, so the tool was invoked once, not
    twice. *)
Lemma failed_csr_is_the_only_command :
  ¬ @provisions_iff_needed_and_twice failing_externals "a.org"
      "/home/user-data/ssl/ssl_private_key.pem"
      "/home/user-data/ssl/a.org/ssl_certificate.pem"
      "/home/user-data/ssl/a.org/certificate_signing_request.csr"
      box_env empty_world.
Proof.
  unfold provisions_iff_needed_and_twice.
  rewrite (@ensure_ssl_certificate_exists_run failing_externals)
    by (vm_compute; done).
  cbn. intros (_ & _ & Htwice).
  specialize (Htwice ltac:(done)). discriminate Htwice.
Qed.

Lemma ensure_ssl_certificate_exists_commands_witness :
  must_provision "a.org" "/home/user-data/ssl/a.org/ssl_certificate.pem"
    box_env (disk empty_world)
  ∧ new_calls empty_world
      (@ensure_ssl_certificate_exists quiet_externals "a.org"
         "/home/user-data/ssl/ssl_private_key.pem"
         "/home/user-data/ssl/a.org/ssl_certificate.pem"
         "/home/user-data/ssl/a.org/certificate_signing_request.csr"
         box_env empty_world).2
    = [ @csr_command "a.org" "/home/user-data/ssl/ssl_private_key.pem"
          "/home/user-data/ssl/a.org/certificate_signing_request.csr" box_env;
        x509_command "/home/user-data/ssl/ssl_private_key.pem"
          "/home/user-data/ssl/a.org/ssl_certificate.pem"
          "/home/user-data/ssl/a.org/certificate_signing_request.csr" ].
Proof.
  assert (must_provision "a.org" "/home/user-data/ssl/a.org/ssl_certificate.pem"
            box_env (disk empty_world)) as Hmust by (vm_compute; done).
  split; [exact Hmust|].
  pose proof (@ensure_ssl_certificate_exists_commands quiet_externals "a.org"
                "/home/user-data/ssl/ssl_private_key.pem"
                "/home/user-data/ssl/a.org/ssl_certificate.pem"
                "/home/user-data/ssl/a.org/certificate_signing_request.csr"
                box_env empty_world) as Hthm.
  destruct (@ensure_ssl_certificate_exists quiet_externals _ _ _ _ _ _)
    as [r w'].
  destruct Hthm as (_ & Hrun & _). exact (proj1 (Hrun Hmust)).
Defined.

(** ** Strings *)

Lemma str_drop_app_length (p s : string) :
  str_drop (String.length p) (p +:+ s) = s.
Proof. induction p as [|c p IH]; [done|]. rewrite str_app_cons. apply IH. Qed.

Lemma str_drop_app_le (n : nat) (x z : string) :
  (n ≤ String.length x)%nat → str_drop n (x +:+ z) = str_drop n x +:+ z.
Proof.
  revert x. induction n as [|n IH]; intros x Hn; [done|].
  destruct x as [|c x]; cbn in Hn; [lia|].
  rewrite str_app_cons. cbn. apply IH. lia.
Qed.

Lemma str_length_drop (n : nat) (s : string) :
  String.length (str_drop n s) = String.length s - n.
Proof.
  revert s. induction n as [|n IH]; intros s; cbn; [lia|].
  destruct s as [|c s]; cbn; [done|]. apply IH.
Qed.

Lemma prefix_nil_l (s : string) : String.prefix "" s = true.
Proof. by destruct s. Qed.

Lemma prefix_cons (a b : ascii) (p s : string) :
  String.prefix (String a p) (String b s)
  = bool_decide (a = b) && String.prefix p s.
Proof.
  cbn. destruct (ascii_dec a b) as [->|Hne].
  - by rewrite bool_decide_eq_true_2.
  - by rewrite bool_decide_eq_false_2.
Qed.

Lemma prefix_app (p s : string) : String.prefix p (p +:+ s) = true.
Proof.
  induction p as [|c p IH]; [apply prefix_nil_l|].
  rewrite str_app_cons, prefix_cons, IH. by rewrite bool_decide_eq_true_2.
Qed.

Lemma prefix_true_split (p s : string) :
  String.prefix p s = true → s = p +:+ str_drop (String.length p) s.
Proof.
  revert s. induction p as [|a p IH]; intros s Hp; [done|].
  destruct s as [|b s]; [done|].
  rewrite prefix_cons in Hp. apply andb_true_iff in Hp as [Hab Hp].
  apply bool_decide_eq_true_1 in Hab as ->.
  rewrite str_app_cons. cbn. f_equal. by apply IH.
Qed.

Lemma prefix_true_length (p s : string) :
  String.prefix p s = true → (String.length p ≤ String.length s)%nat.
Proof.
  intros Hp%prefix_true_split. apply (f_equal String.length) in Hp.
  rewrite str_length_app in Hp. lia.
Qed.

Lemma prefix_true_split_cons (p : string) (c : ascii) (s : string) :
  p ≠ "" → String.prefix p (String c s) = true →
  String c s = p +:+ str_drop (String.length p - 1) s.
Proof.
  intros Hne Hp. apply prefix_true_split in Hp.
  destruct p as [|a p]; [done|]. cbn in Hp |- *. by rewrite Nat.sub_0_r.
Qed.

(** A match cannot reach over a character that the pattern does not have. *)
Lemma prefix_app_boundary (p x y : string) (c : ascii) :
  char_in c p = false →
  String.prefix p (x +:+ String c y) = String.prefix p x.
Proof.
  revert p. induction x as [|b x IH]; intros p Hc.
  - destruct p as [|a p]; [done|]. rewrite str_app_nil_l, prefix_cons.
    cbn in Hc. apply orb_false_iff in Hc as [Hac _]. by rewrite Hac.
  - destruct p as [|a p]; [done|]. rewrite str_app_cons, !prefix_cons.
    cbn in Hc. apply orb_false_iff in Hc as [_ Hc]. by rewrite IH.
Qed.

Lemma str_contains_cons (old : string) (c : ascii) (s : string) :
  str_contains old (String c s)
  = String.prefix old (String c s) || str_contains old s.
Proof. done. Qed.

Lemma str_contains_prefix (pat s : string) :
  String.prefix pat s = true → str_contains pat s = true.
Proof. intros Hp. destruct s; cbn [str_contains]; by rewrite Hp. Qed.

Lemma str_contains_app (pat x y : string) :
  str_contains pat (x +:+ pat +:+ y) = true.
Proof.
  induction x as [|c x IH].
  - rewrite str_app_nil_l. apply str_contains_prefix, prefix_app.
  - rewrite str_app_cons, str_contains_cons, IH. apply orb_true_r.
Qed.

(** *** replace *)

Lemma str_replace_go_skip (old new : string) (k : nat) (s : string) :
  str_replace_go old new k s = str_replace_go old new 0 (str_drop k s).
Proof.
  revert k. induction s as [|c s IH]; intros [|k]; try done. cbn. apply IH.
Qed.

Lemma str_replace_go_cons (old new : string) (c : ascii) (s : string) :
  str_replace_go old new 0 (String c s)
  = if String.prefix old (String c s)
    then new +:+ str_replace_go old new 0 (str_drop (String.length old - 1) s)
    else String c (str_replace_go old new 0 s).
Proof. cbn [str_replace_go]. by rewrite <- str_replace_go_skip. Qed.

Lemma str_replace_go_absent (old new s : string) :
  str_contains old s = false → str_replace_go old new 0 s = s.
Proof.
  induction s as [|c s IH]; [done|].
  rewrite str_contains_cons, str_replace_go_cons.
  intros [-> Hs]%orb_false_iff. by rewrite IH.
Qed.

(** Replacement works on the two sides of a character that the pattern does
    not have independently of each other. *)
Lemma str_replace_go_boundary (old new x y : string) (c : ascii) :
  char_in c old = false →
  str_replace_go old new 0 (x +:+ String c y)
  = str_replace_go old new 0 x +:+ str_replace_go old new 0 (String c y).
Proof.
  intros Hc. remember (String.length x) as n eqn:Hn. revert x Hn.
  induction n as [n IH] using lt_wf_ind. intros x Hn.
  destruct x as [|b x]; [done|].
  set (rest := str_replace_go old new 0 (String c y)) in *.
  rewrite str_app_cons, !str_replace_go_cons.
  rewrite <- str_app_cons, prefix_app_boundary by done.
  destruct (String.prefix old (String b x)) eqn:Hp.
  - pose proof (prefix_true_length _ _ Hp) as Hlen. cbn in Hlen, Hn.
    rewrite str_drop_app_le by lia.
    rewrite (IH (String.length (str_drop (String.length old - 1) x))).
    + by rewrite str_app_assoc.
    + rewrite str_length_drop. lia.
    + done.
  - rewrite str_app_cons. f_equal. apply (IH (String.length x)); [|done].
    cbn in Hn. lia.
Qed.

(** *** split and join *)

Lemma re_split_go_skip (pat : string) (k : nat) (cur s : string) :
  re_split_go pat k cur s = re_split_go pat 0 cur (str_drop k s).
Proof.
  revert k. induction s as [|c s IH]; intros [|k]; try done. cbn. apply IH.
Qed.

Lemma re_split_go_cons (pat cur : string) (c : ascii) (s : string) :
  re_split_go pat 0 cur (String c s)
  = if String.prefix pat (String c s)
    then cur :: pat
         :: re_split_go pat 0 "" (str_drop (String.length pat - 1) s)
    else re_split_go pat 0 (cur +:+ String c "") s.
Proof. cbn [re_split_go]. by rewrite <- re_split_go_skip. Qed.

Lemma str_concat_cons (x : string) (l : list string) :
  String.concat "" (x :: l) = x +:+ String.concat "" l.
Proof. destruct l; cbn; [by rewrite str_app_nil_r | done]. Qed.

Lemma str_app_snoc (cur : string) (c : ascii) (s : string) :
  (cur +:+ String c "") +:+ s = cur +:+ String c s.
Proof. by rewrite str_app_assoc. Qed.

(** Joining the pieces gives the text back. *)
Lemma concat_re_split_go (pat cur s : string) :
  pat ≠ "" → String.concat "" (re_split_go pat 0 cur s) = cur +:+ s.
Proof.
  intros Hpat. remember (String.length s) as n eqn:Hn. revert cur s Hn.
  induction n as [n IH] using lt_wf_ind. intros cur s Hn.
  destruct s as [|c s]; [cbn; by rewrite str_app_nil_r|].
  rewrite re_split_go_cons.
  destruct (String.prefix pat (String c s)) eqn:Hp.
  - rewrite !str_concat_cons.
    rewrite (IH (String.length (str_drop (String.length pat - 1) s)));
      [|rewrite str_length_drop; cbn in Hn; lia|done].
    rewrite str_app_nil_l. f_equal. symmetry.
    by apply prefix_true_split_cons.
  - rewrite (IH (String.length s)); [|cbn in Hn; lia|done].
    apply str_app_snoc.
Qed.

Lemma re_split_go_absent (pat cur s : string) :
  str_contains pat s = false → re_split_go pat 0 cur s = [cur +:+ s].
Proof.
  revert cur. induction s as [|c s IH]; intros cur.
  - intros _. cbn. by rewrite str_app_nil_r.
  - rewrite str_contains_cons, re_split_go_cons.
    intros [-> Hs]%orb_false_iff. rewrite IH by done. by rewrite str_app_snoc.
Qed.

Lemma re_split_go_first (pat s : string) :
  pat ≠ "" → str_contains pat s = true →
  ∃ pre post,
    s = pre +:+ pat +:+ post
    ∧ no_match_before pat s (String.length pre)
    ∧ ∀ cur, re_split_go pat 0 cur s
             = (cur +:+ pre) :: pat :: re_split_go pat 0 "" post.
Proof.
  intros Hpat. induction s as [|c s IH].
  - cbn. destruct pat; [done|]. cbn. discriminate.
  - rewrite str_contains_cons.
    destruct (String.prefix pat (String c s)) eqn:Hp.
    + intros _. exists "", (str_drop (String.length pat - 1) s).
      split; [|split].
      * rewrite str_app_nil_l. by apply prefix_true_split_cons.
      * intros i Hi. cbn in Hi. lia.
      * intros cur. by rewrite re_split_go_cons, Hp, str_app_nil_r.
    + cbn [orb]. intros (pre & post & Hs & Hfirst & Hsplit)%IH.
      exists (String c pre), post. split; [|split].
      * rewrite str_app_cons. by f_equal.
      * intros [|i] Hi; [done|]. cbn. apply Hfirst. cbn in Hi. lia.
      * intros cur. rewrite re_split_go_cons, Hp, Hsplit.
        by rewrite str_app_snoc.
Qed.

(** Two ways of cutting the same text: the one that cuts earlier continues
    with a piece of the other. *)
Lemma str_app_eq_split (a b c d : string) :
  a +:+ b = c +:+ d → (String.length a ≤ String.length c)%nat →
  ∃ q, c = a +:+ q ∧ b = q +:+ d.
Proof.
  revert c. induction a as [|x a IH]; intros c Heq Hlen.
  - exists c. by rewrite !str_app_nil_l in *.
  - destruct c as [|y c]; cbn in Hlen; [lia|].
    rewrite !str_app_cons in Heq. injection Heq as -> Heq.
    destruct (IH c Heq ltac:(lia)) as (q & -> & ->).
    exists q. by rewrite str_app_cons.
Qed.

(** ** Rendering one domain *)

Section rendering.
Context `{Externals}.

Lemma add_customizations_proxy domain env parts target (w : World) :
  overlay_has_proxy domain env (disk w) target →
  add_customizations domain env parts w
  = append_to_second parts (proxy_block target) w.
Proof.
  intros (text & yaml & directives & value & Hfile & Hload & Hdom & Hentry
          & Hproxy & Hvalue & ->).
  unfold add_customizations. fold (custom_yaml_path env).
  unfold mbind, M_bind, get_disk, read_file, os_path_exists, subscript.
  rewrite bool_decide_eq_true_2 by (rewrite Hfile; eauto).
  rewrite Hfile. cbv beta iota. rewrite Hload, Hdom, Hentry.
  unfold mret, M_ret. cbv beta iota. by rewrite Hproxy, Hvalue.
Qed.

Lemma add_customizations_none domain env parts (w : World) :
  overlay_has_no_proxy domain env (disk w) →
  add_customizations domain env parts w = (inr parts, w).
Proof.
  unfold add_customizations. fold (custom_yaml_path env).
  unfold mbind, M_bind, get_disk, read_file, os_path_exists.
  unfold subscript.
  intros [Hnone|(text & yaml & Hfile & Hload & Hdom)].
  - rewrite bool_decide_eq_false_2; [done|]. rewrite Hnone. by intros [? ?].
  - rewrite bool_decide_eq_true_2 by (rewrite Hfile; eauto).
    rewrite Hfile. cbv beta iota. rewrite Hload.
    destruct Hdom as [Hdom|(directives & Hdom & Hentry & Hproxy)].
    + by rewrite Hdom.
    + rewrite Hdom, Hentry. unfold mret, M_ret. cbv beta iota.
      by rewrite Hproxy.
Qed.

(** make_domain_config once the certificate step has returned. *)
Lemma make_domain_config_provisioned domain template env (w w1 : World)
    ssl_key ssl_certificate csr_path :
  get_domain_ssl_files domain env (disk w)
  = (ssl_key, ssl_certificate, csr_path) →
  ensure_ssl_certificate_exists domain ssl_key ssl_certificate csr_path env w
  = (inr tt, w1) →
  make_domain_config domain template env w
  = match add_customizations domain env
            (re_split_group directives_marker
               (substitute template domain (get_web_root domain env (disk w))
                  ssl_key ssl_certificate)) w1 with
    | (inl e, w2) => (inl e, w2)
    | (inr parts, w2) => (inr (String.concat "" parts), w2)
    end.
Proof.
  intros Hfiles Hensure. unfold make_domain_config.
  unfold mbind at 1. unfold M_bind at 1. unfold get_disk at 1.
  rewrite Hfiles. unfold mbind at 1. unfold M_bind at 1. rewrite Hensure.
  unfold mbind, M_bind.
  by destruct (add_customizations _ _ _ w1) as [[e|parts] w2].
Qed.

Lemma directives_marker_nonempty : directives_marker ≠ "".
Proof. done. Qed.

(** Without a proxy target the result is the template with the four
    substitutions, whatever the template. *)
Lemma make_domain_config_plain domain template env (w w1 : World)
    ssl_key ssl_certificate csr_path :
  get_domain_ssl_files domain env (disk w)
  = (ssl_key, ssl_certificate, csr_path) →
  ensure_ssl_certificate_exists domain ssl_key ssl_certificate csr_path env w
  = (inr tt, w1) →
  overlay_has_no_proxy domain env (disk w1) →
  make_domain_config domain template env w
  = (inr (substitute template domain (get_web_root domain env (disk w))
            ssl_key ssl_certificate), w1).
Proof.
  intros Hfiles Hensure Hnone.
  rewrite (make_domain_config_provisioned _ _ _ _ _ _ _ _ Hfiles Hensure).
  rewrite add_customizations_none by done. unfold re_split_group.
  by rewrite concat_re_split_go by apply directives_marker_nonempty.
Qed.

End rendering.

Lemma str_replace_go_other (old new : string) (c : ascii) (s : string) :
  char_in c old = false → old ≠ "" →
  str_replace_go old new 0 (String c s)
  = String c (str_replace_go old new 0 s).
Proof.
  intros Hc Hne. rewrite str_replace_go_cons.
  destruct old as [|a old]; [done|]. rewrite prefix_cons.
  cbn in Hc. apply orb_false_iff in Hc as [-> _]. done.
Qed.

(** [replace] on a text cut at a character that [old] does not have. *)
Lemma str_replace_cut (x y old new : string) (c : ascii) :
  char_in c old = false → old ≠ "" →
  str_replace (x +:+ String c y) old new
  = str_replace x old new +:+ String c (str_replace y old new).
Proof.
  intros Hc Hne. unfold str_replace. destruct old as [|a old]; [done|].
  by rewrite str_replace_go_boundary, str_replace_go_other.
Qed.

Lemma str_replace_absent (s old new : string) :
  old ≠ "" → str_contains old s = false → str_replace s old new = s.
Proof.
  intros Hne Hs. unfold str_replace. destruct old as [|a old]; [done|].
  by apply str_replace_go_absent.
Qed.

(** The four substitutions on the template of the examples: the later
    substitutions also run over the root and the key put in by the earlier
    ones. *)
Lemma substitute_sample_template (root ssl_key ssl_certificate : string) :
  substitute sample_template "example.com" root ssl_key ssl_certificate
  = "example.com|"
    +:+ str_replace (str_replace root "$SSL_KEY" ssl_key)
          "$SSL_CERTIFICATE" ssl_certificate
    +:+ "|" +:+ str_replace ssl_key "$SSL_CERTIFICATE" ssl_certificate
    +:+ "|" +:+ ssl_certificate +:+ LF +:+ directives_marker +:+ "tail".
Proof.
  unfold substitute.
  set (rest := LF +:+ directives_marker +:+ "tail").
  assert (str_replace sample_template "$HOSTNAME" "example.com"
          = "example.com|$ROOT|$SSL_KEY|$SSL_CERTIFICATE" +:+ rest) as ->
    by (vm_compute; done).
  assert (str_replace ("example.com|$ROOT|$SSL_KEY|$SSL_CERTIFICATE" +:+ rest)
            "$ROOT" root
          = "example.com" +:+ String "|" (root +:+ String "|"
              ("$SSL_KEY|$SSL_CERTIFICATE" +:+ rest))) as -> by reflexivity.
  rewrite !str_replace_cut by done.
  assert (str_replace "example.com" "$SSL_KEY" ssl_key = "example.com") as ->
    by reflexivity.
  assert (str_replace ("$SSL_KEY|$SSL_CERTIFICATE" +:+ rest) "$SSL_KEY" ssl_key
          = ssl_key +:+ String "|" ("$SSL_CERTIFICATE" +:+ rest)) as ->
    by reflexivity.
  rewrite !str_replace_cut by done.
  assert (str_replace "example.com" "$SSL_CERTIFICATE" ssl_certificate
          = "example.com") as -> by reflexivity.
  assert (str_replace ("$SSL_CERTIFICATE" +:+ rest) "$SSL_CERTIFICATE"
            ssl_certificate
          = ssl_certificate +:+ rest) as -> by reflexivity.
  subst rest. reflexivity.
Qed.

Lemma append_to_second_cons (a b : string) (l : list string) (block : string)
    (w : World) :
  append_to_second (a :: b :: l) block w = (inr (a :: (b +:+ block) :: l), w).
Proof. done. Qed.

Lemma prefix_app_l (p q s : string) :
  String.prefix (p +:+ q) s = true → String.prefix p s = true.
Proof.
  revert s. induction p as [|a p IH]; intros s; [by rewrite prefix_nil_l|].
  destruct s as [|b s]; [done|]. rewrite str_app_cons, !prefix_cons.
  intros [-> Hp]%andb_true_iff. by rewrite (IH s Hp).
Qed.

(** A piece of text that has no occurrence of the head [p0] of the pattern,
    followed by a character that [p0] does not have, goes into the current
    part whole. *)
Lemma re_split_go_segment (p0 q cur x y : string) (c : ascii) :
  p0 ≠ "" → str_contains p0 x = false → char_in c p0 = false →
  re_split_go (p0 +:+ q) 0 cur (x +:+ String c y)
  = re_split_go (p0 +:+ q) 0 (cur +:+ x +:+ String c "") y.
Proof.
  intros Hne Hx Hc. revert cur. induction x as [|b x IH]; intros cur.
  - rewrite !str_app_nil_l, re_split_go_cons.
    destruct (String.prefix (p0 +:+ q) (String c y)) eqn:Hp; [|done].
    apply prefix_app_l in Hp. destruct p0 as [|a p0]; [done|].
    rewrite prefix_cons in Hp. cbn in Hc.
    apply orb_false_iff in Hc as [Hac _]. by rewrite Hac in Hp.
  - rewrite str_contains_cons in Hx.
    apply orb_false_iff in Hx as [Hb Hx].
    rewrite str_app_cons, re_split_go_cons.
    destruct (String.prefix (p0 +:+ q) (String b (x +:+ String c y))) eqn:Hp.
    + apply prefix_app_l in Hp.
      rewrite <- str_app_cons, prefix_app_boundary in Hp by done. congruence.
    + rewrite IH by done. by rewrite str_app_snoc, str_app_cons.
Qed.

Lemma re_split_go_at_match (pat cur y : string) :
  pat ≠ "" →
  re_split_go pat 0 cur (pat +:+ y) = cur :: pat :: re_split_go pat 0 "" y.
Proof.
  intros Hne. destruct pat as [|a pat]; [done|].
  rewrite str_app_cons, re_split_go_cons, <- str_app_cons, prefix_app.
  change (String.length (String a pat) - 1) with (String.length pat - 0).
  by rewrite Nat.sub_0_r, str_drop_app_length.
Qed.

(** C4, as stated, fails: with a storage root that has "$SSL_KEY" in its
    name, the document root put in for "$ROOT" is itself rewritten by the
    later substitution of "$SSL_KEY". *)
Lemma placeholder_in_root_is_substituted :
  ¬ @renders_sample_plainly quiet_externals placeholder_env empty_world.
Proof.
  unfold renders_sample_plainly. vm_compute. intros Heq. discriminate Heq.
Qed.

(** C5, as stated, fails: with a storage root that has the marker line in
    its name, the substituted template has a marker line inside the document
    root, and the proxy block is put there, in the first line, not between
    the marker line of the template and its tail. *)
Lemma marker_in_root_takes_the_block :
  ¬ @renders_sample_with_proxy proxy_externals marker_env marker_overlay_world.
Proof.
  unfold renders_sample_with_proxy. vm_compute. intros Heq. discriminate Heq.
Qed.

Section rendering_examples.
Context `{Externals}.

(** C4, amended: for the example template and domain example.com, when the
    certificate step returns, there is no proxy target for the domain in the
    overlay, the resolved document root contains neither "$SSL_KEY" nor
    "$SSL_CERTIFICATE" and the resolved key path does not contain
    "$SSL_CERTIFICATE", make_domain_config returns exactly
    example.com|<root>|<key>|<cert>, the marker line and the tail: nothing is
    inserted and the tail is unchanged. *)
Theorem make_domain_config_sample_plain env (w w1 : World)
    ssl_key ssl_certificate csr_path :
  get_domain_ssl_files "example.com" env (disk w)
  = (ssl_key, ssl_certificate, csr_path) →
  ensure_ssl_certificate_exists "example.com" ssl_key ssl_certificate
    csr_path env w = (inr tt, w1) →
  overlay_has_no_proxy "example.com" env (disk w1) →
  str_contains "$SSL_KEY" (get_web_root "example.com" env (disk w)) = false →
  str_contains "$SSL_CERTIFICATE" (get_web_root "example.com" env (disk w))
  = false →
  str_contains "$SSL_CERTIFICATE" ssl_key = false →
  make_domain_config "example.com" sample_template env w
  = (inr ("example.com|" +:+ get_web_root "example.com" env (disk w)
          +:+ "|" +:+ ssl_key +:+ "|" +:+ ssl_certificate
          +:+ LF +:+ "# ADDITIONAL DIRECTIVES HERE" +:+ LF +:+ "tail"), w1).
Proof.
  intros Hfiles Hensure Hnone Hroot1 Hroot2 Hkey.
  rewrite (make_domain_config_plain _ _ _ _ _ _ _ _ Hfiles Hensure Hnone).
  rewrite substitute_sample_template.
  rewrite (str_replace_absent _ "$SSL_KEY") by done.
  by rewrite !(str_replace_absent _ "$SSL_CERTIFICATE") by done.
Qed.

(** C5, amended: for the example template and an overlay that gives
    example.com the proxy target http://localhost:8080, when the certificate
    step returns, the resolved document root contains neither "$SSL_KEY" nor
    "$SSL_CERTIFICATE", the resolved key path does not contain
    "$SSL_CERTIFICATE", and none of root, key path and certificate path
    contains "# ADDITIONAL DIRECTIVES HERE", make_domain_config returns
    example.com|<root>|<key>|<cert>, the marker line, the proxy block for
    http://localhost:8080 and then the tail: the block is right after the
    marker line of the template and before its tail, and the rest is the
    template with the four substitutions. *)
Theorem make_domain_config_sample_proxy env (w w1 : World)
    ssl_key ssl_certificate csr_path :
  get_domain_ssl_files "example.com" env (disk w)
  = (ssl_key, ssl_certificate, csr_path) →
  ensure_ssl_certificate_exists "example.com" ssl_key ssl_certificate
    csr_path env w = (inr tt, w1) →
  overlay_has_proxy "example.com" env (disk w1) "http://localhost:8080" →
  str_contains "$SSL_KEY" (get_web_root "example.com" env (disk w)) = false →
  str_contains "$SSL_CERTIFICATE" (get_web_root "example.com" env (disk w))
  = false →
  str_contains "$SSL_CERTIFICATE" ssl_key = false →
  str_contains "# ADDITIONAL DIRECTIVES HERE"
    (get_web_root "example.com" env (disk w)) = false →
  str_contains "# ADDITIONAL DIRECTIVES HERE" ssl_key = false →
  str_contains "# ADDITIONAL DIRECTIVES HERE" ssl_certificate = false →
  make_domain_config "example.com" sample_template env w
  = (inr ("example.com|" +:+ get_web_root "example.com" env (disk w)
          +:+ "|" +:+ ssl_key +:+ "|" +:+ ssl_certificate
          +:+ LF +:+ "# ADDITIONAL DIRECTIVES HERE" +:+ LF
          +:+ TAB +:+ "location / {" +:+ LF
          +:+ TAB +:+ TAB +:+ "proxy_pass http://localhost:8080;" +:+ LF
          +:+ TAB +:+ "}" +:+ LF
          +:+ "tail"), w1).
Proof.
  intros Hfiles Hensure Hproxy Hroot1 Hroot2 Hkey Hroot3 Hkey3 Hcert3.
  rewrite (make_domain_config_provisioned _ _ _ _ _ _ _ _ Hfiles Hensure).
  rewrite (add_customizations_proxy _ _ _ _ _ Hproxy).
  rewrite substitute_sample_template.
  rewrite (str_replace_absent _ "$SSL_KEY") by done.
  rewrite !(str_replace_absent _ "$SSL_CERTIFICATE") by done.
  set (root := get_web_root "example.com" env (disk w)) in *.
  unfold re_split_group.
  change ("example.com|" +:+ root +:+ "|" +:+ ssl_key +:+ "|"
          +:+ ssl_certificate +:+ LF +:+ directives_marker +:+ "tail")
    with ("example.com" +:+ String "|" (root +:+ String "|"
            (ssl_key +:+ String "|" (ssl_certificate
               +:+ String (ascii_of_nat 10) (directives_marker +:+ "tail"))))).
  change directives_marker with ("# ADDITIONAL DIRECTIVES HERE" +:+ LF) at 1.
  rewrite !re_split_go_segment by done.
  rewrite re_split_go_at_match by done.
  rewrite append_to_second_cons.
  change (re_split_go directives_marker 0 "" "tail") with ["tail"].
  rewrite !str_concat_cons. change (String.concat "" []) with "".
  rewrite !str_app_assoc. reflexivity.
Qed.


End rendering_examples.

(** ** What a computation leaves alone *)

Lemma keeps_ret {A} (p : string) (x : A) : keeps p (mret x).
Proof. by intros w _. Qed.

Lemma keeps_raise {A} (p : string) (e : exn) : keeps p (raise (A:=A) e).
Proof. by intros w _. Qed.

Lemma keeps_bind {A B} (p : string) (m : M A) (f : A → M B) :
  keeps p m → (∀ x, keeps p (f x)) → keeps p (m ≫= f).
Proof.
  intros Hm Hf w Hw. unfold mbind, M_bind.
  specialize (Hm w Hw). destruct (m w) as [[e|x] w']; [done|].
  cbn in Hm. rewrite <- Hm. apply Hf. by rewrite Hm.
Qed.

Lemma keeps_get_disk (p : string) : keeps p get_disk.
Proof. by intros w _. Qed.

Lemma keeps_subscript (p : string) container key :
  keeps p (subscript container key).
Proof.
  unfold subscript.
  destruct (py_getitem container key); [apply keeps_raise | apply keeps_ret].
Qed.

Lemma keeps_read_file (p q : string) : keeps p (read_file q).
Proof.
  intros w _. unfold read_file. by destruct (disk w !! q) as [[]|].
Qed.

Section frame.
Context `{Externals}.

Lemma keeps_shell_check_call (p : string) argv :
  externals_keep p → keeps p (shell_check_call argv).
Proof.
  intros [Hrun _] w Hw. unfold shell_check_call.
  specialize (Hrun argv (disk w) Hw).
  by destruct (run_command argv (disk w)) as [[] d].
Qed.

Lemma keeps_makedirs (p q : string) :
  externals_keep p → keeps p (makedirs q).
Proof.
  intros [_ Hmk] w Hw. unfold makedirs.
  destruct (os_makedirs q (disk w)) as [d|] eqn:Hd; [|done]. cbn. eauto.
Qed.

Lemma keeps_ensure_ssl_certificate_exists (p : string)
    domain ssl_key ssl_certificate csr_path env :
  externals_keep p →
  keeps p (ensure_ssl_certificate_exists domain ssl_key ssl_certificate
             csr_path env).
Proof.
  intros Hk. unfold ensure_ssl_certificate_exists.
  repeat case_bool_decide; try apply keeps_ret.
  apply keeps_bind; [apply keeps_get_disk|]. intros d.
  destruct (os_path_exists ssl_certificate d); [apply keeps_ret|].
  apply keeps_bind; [by apply keeps_makedirs|]. intros _.
  apply keeps_bind; [by apply keeps_shell_check_call|]. intros _.
  by apply keeps_shell_check_call.
Qed.

Lemma keeps_append_to_second (p : string) parts block :
  keeps p (append_to_second parts block).
Proof.
  unfold append_to_second.
  destruct (parts !! 1); [apply keeps_ret | apply keeps_raise].
Qed.

Lemma keeps_add_customizations (p : string) domain env parts :
  keeps p (add_customizations domain env parts).
Proof.
  unfold add_customizations.
  apply keeps_bind; [apply keeps_get_disk|]. intros d.
  destruct (os_path_exists _ d); [|apply keeps_ret].
  apply keeps_bind; [apply keeps_read_file|]. intros text.
  destruct (rtyaml_load text) as [yaml|]; [|apply keeps_raise].
  destruct (py_in domain yaml) as [[]|];
    [|apply keeps_ret|apply keeps_raise].
  apply keeps_bind; [apply keeps_subscript|]. intros directives.
  destruct (py_in "proxy" directives) as [[]|];
    [|apply keeps_ret|apply keeps_raise].
  apply keeps_bind; [apply keeps_subscript|]. intros value.
  apply keeps_append_to_second.
Qed.

Lemma keeps_make_domain_config (p : string) domain template env :
  externals_keep p → keeps p (make_domain_config domain template env).
Proof.
  intros Hk. unfold make_domain_config.
  apply keeps_bind; [apply keeps_get_disk|]. intros d.
  destruct (get_domain_ssl_files domain env d) as [[ssl_key ssl_certificate] csr].
  apply keeps_bind; [by apply keeps_ensure_ssl_certificate_exists|]. intros _.
  apply keeps_bind; [apply keeps_add_customizations|]. intros parts.
  apply keeps_ret.
Qed.

Lemma keeps_add_domain_configs (p : string) domains template env nginx_conf :
  externals_keep p →
  keeps p (add_domain_configs domains template env nginx_conf).
Proof.
  intros Hk. revert nginx_conf.
  induction domains as [|domain rest IH]; intros nginx_conf; cbn.
  - apply keeps_ret.
  - apply keeps_bind; [by apply keeps_make_domain_config|]. intros block.
    apply IH.
Qed.

Lemma keeps_build_nginx_conf (p : string) env mail_domains dns :
  externals_keep p → keeps p (build_nginx_conf env mail_domains dns).
Proof.
  intros Hk. unfold build_nginx_conf.
  apply keeps_bind; [apply keeps_read_file|]. intros nginx_conf.
  apply keeps_bind; [apply keeps_read_file|]. intros template.
  by apply keeps_add_domain_configs.
Qed.

(** ** Installing the configuration *)

Lemma conf_is_current_dec (nginx_conf : string) (d : gmap string node) :
  conf_is_current nginx_conf d ∨ ¬ conf_is_current nginx_conf d.
Proof.
  unfold conf_is_current. fold nginx_conf_fn.
  destruct (d !! nginx_conf_fn) as [[stored|]|] eqn:Hfile.
  - destruct (decide (universal_newlines stored = nginx_conf)) as [Heq|Hne].
    + left. eauto.
    + right. intros (stored' & [= <-] & Heq). done.
  - right. by intros (stored' & ? & _).
  - right. by intros (stored' & ? & _).
Qed.

Lemma install_nginx_conf_unchanged (nginx_conf : string) (w : World) :
  conf_is_current nginx_conf (disk w) →
  install_nginx_conf nginx_conf w = (inr "", w).
Proof.
  intros (stored & Hfile & Hread). fold nginx_conf_fn in Hfile.
  unfold install_nginx_conf.
  unfold mbind, M_bind, get_disk, read_file, os_path_exists.
  rewrite bool_decide_eq_true_2 by (rewrite Hfile; eauto).
  rewrite Hfile. cbn. by rewrite bool_decide_eq_true_2.
Qed.

(** The text differs, or there is no file yet: what happens turns on whether
    the file can be written. *)
Lemma install_nginx_conf_changed (nginx_conf : string) (w : World) :
  ¬ conf_is_current nginx_conf (disk w) →
  disk w !! nginx_conf_fn ≠ Some Dir →
  install_nginx_conf nginx_conf w
  = if parent_is_dir nginx_conf_fn (disk w)
       && os_writable nginx_conf_fn (disk w)
    then
      let '(ok, d) :=
        run_command reload_command
          (<[nginx_conf_fn := File nginx_conf]> (disk w)) in
      (if ok then inr ("web updated" +:+ LF)
       else inl (CalledProcessError reload_command),
       mkWorld d (calls w ++ [reload_command]))
    else (inl (IOError nginx_conf_fn), w).
Proof.
  intros Hdiff Hnodir. unfold install_nginx_conf.
  unfold mbind, M_bind, get_disk, read_file, write_file, shell_check_call,
    os_path_exists.
  destruct (disk w !! nginx_conf_fn) as [[old|]|] eqn:Hfile.
  - rewrite bool_decide_eq_true_2 by eauto. rewrite Hfile.
    unfold mret, M_ret. rewrite bool_decide_eq_false_2.
    2:{ intros Heq. apply Hdiff. exists old. split; [exact Hfile|exact Heq]. }
    cbv beta iota. rewrite Hfile. cbv beta iota.
    destruct (parent_is_dir _ _ && os_writable _ _); [|done].
    cbn [disk calls]. by destruct (run_command _ _) as [[] d].
  - done.
  - rewrite bool_decide_eq_false_2 by (by intros [? ?]).
    unfold mret, M_ret. cbv beta iota. rewrite Hfile. cbv beta iota.
    destruct (parent_is_dir _ _ && os_writable _ _); [|done].
    cbn [disk calls]. by destruct (run_command _ _) as [[] d].
Qed.

Lemma install_nginx_conf_directory (nginx_conf : string) (w : World) :
  disk w !! nginx_conf_fn = Some Dir →
  install_nginx_conf nginx_conf w = (inl (IOError nginx_conf_fn), w).
Proof.
  intros Hdir.
  unfold install_nginx_conf, mbind, M_bind, get_disk, read_file,
    os_path_exists.
  rewrite bool_decide_eq_true_2 by (rewrite Hdir; eauto). by rewrite Hdir.
Qed.

Lemma do_web_update_built env mail_domains dns (w wb : World) nginx_conf :
  build_nginx_conf env mail_domains dns w = (inr nginx_conf, wb) →
  do_web_update env mail_domains dns w = install_nginx_conf nginx_conf wb.
Proof.
  intros Hb. unfold do_web_update. unfold mbind at 1. unfold M_bind at 1.
  by rewrite Hb.
Qed.


(** C9: when reading the configuration file does not give the text built
    (or there is no such file), and the file can be written, do_web_update
    first writes the new text to the file and then runs the reload command on
    the disk that has it; the result is the update message when the command
    succeeds and its failure when it fails, and in both cases the final disk
    is the one the reload command left: nothing is rolled back, so with a
    reload command that leaves the file alone the file holds the new text
    after a failed reload.  When the file cannot be written (its directory is
    missing, or the process may not write there) the error of the write
    propagates and the reload command is not run. *)
Theorem do_web_update_writes_before_reload env mail_domains dns
    (w wb : World) nginx_conf ok (d : gmap string node) :
  build_nginx_conf env mail_domains dns w = (inr nginx_conf, wb) →
  ¬ conf_is_current nginx_conf (disk wb) →
  disk wb !! nginx_conf_fn ≠ Some Dir →
  (parent_is_dir nginx_conf_fn (disk wb) = true →
   os_writable nginx_conf_fn (disk wb) = true →
   run_command reload_command (<[nginx_conf_fn := File nginx_conf]> (disk wb))
   = (ok, d) →
   do_web_update env mail_domains dns w
   = (if ok then inr ("web updated" +:+ LF)
      else inl (CalledProcessError reload_command),
      mkWorld d (calls wb ++ [reload_command]))
   ∧ (<[nginx_conf_fn := File nginx_conf]> (disk wb)) !! nginx_conf_fn
     = Some (File nginx_conf)
   ∧ (externals_keep nginx_conf_fn →
      d !! nginx_conf_fn = Some (File nginx_conf)))
  ∧ (parent_is_dir nginx_conf_fn (disk wb)
     && os_writable nginx_conf_fn (disk wb) = false →
     do_web_update env mail_domains dns w = (inl (IOError nginx_conf_fn), wb)).
Proof.
  intros Hb Hdiff Hnodir.
  rewrite (do_web_update_built _ _ _ _ _ _ Hb).
  rewrite install_nginx_conf_changed by done. split.
  - intros -> -> Hrun. cbn [andb]. rewrite Hrun.
    split; [done|]. split; [apply lookup_insert_eq|].
    intros [Hkeep _].
    specialize (Hkeep reload_command
                  (<[nginx_conf_fn := File nginx_conf]> (disk wb))).
    rewrite Hrun, lookup_insert_eq in Hkeep. apply Hkeep. eauto.
  - by intros ->.
Qed.

End frame.


(** ** The theorems at work on the concrete scenarios *)

Lemma simple_makedirs_keeps (p q : string) (d d' : gmap string node) :
  is_Some (d !! p) → simple_makedirs q d = Some d' → d' !! p = d !! p.
Proof.
  intros Hp. unfold simple_makedirs.
  destruct (d !! q) as [[c|]|] eqn:Hq; [done|..]; intros [= <-].
  - destruct (decide (q = p)) as [->|Hne].
    + by rewrite lookup_insert_eq.
    + by rewrite lookup_insert_ne.
  - destruct (decide (q = p)) as [->|Hne].
    + rewrite Hq in Hp. by destruct Hp.
    + by rewrite lookup_insert_ne.
Qed.

Lemma quiet_externals_keep (p : string) : @externals_keep quiet_externals p.
Proof. split; [done|]. intros q d d'. apply simple_makedirs_keeps. Qed.

Lemma make_domain_config_sample_plain_witness :
  let ssl_key := "/home/user-data/ssl/ssl_private_key.pem" in
  let ssl_certificate := "/home/user-data/ssl/example.com/ssl_certificate.pem" in
  let csr_path :=
    "/home/user-data/ssl/example.com/certificate_signing_request.csr" in
  let w1 :=
    (@ensure_ssl_certificate_exists quiet_externals "example.com" ssl_key
       ssl_certificate csr_path box_env empty_world).2 in
  @make_domain_config quiet_externals "example.com" sample_template box_env
    empty_world
  = (inr ("example.com|"
          +:+ @get_web_root quiet_externals "example.com" box_env
                (disk empty_world)
          +:+ "|" +:+ ssl_key +:+ "|" +:+ ssl_certificate
          +:+ LF +:+ "# ADDITIONAL DIRECTIVES HERE" +:+ LF +:+ "tail"), w1).
Proof.
  intros ssl_key ssl_certificate csr_path w1.
  apply (@make_domain_config_sample_plain quiet_externals box_env empty_world
           w1 ssl_key ssl_certificate csr_path).
  - vm_compute; reflexivity.
  - vm_compute; reflexivity.
  - left. vm_compute; reflexivity.
  - vm_compute; reflexivity.
  - vm_compute; reflexivity.
  - vm_compute; reflexivity.
Defined.

Lemma proxy_externals_overlay (d : gmap string node) :
  d !! "/home/user-data/www/custom.yaml" = Some (File "example.com: ...") →
  @overlay_has_proxy proxy_externals "example.com" box_env d
    "http://localhost:8080".
Proof.
  intros Hfile.
  exists "example.com: ...",
    (YMap {[ "example.com" :=
               YMap {[ "proxy" := YStr "http://localhost:8080" ]} ]}),
    (YMap {[ "proxy" := YStr "http://localhost:8080" ]}),
    (YStr "http://localhost:8080").
  split; [exact Hfile|]. repeat split; vm_compute; reflexivity.
Qed.

Lemma make_domain_config_sample_proxy_witness :
  let ssl_key := "/home/user-data/ssl/ssl_private_key.pem" in
  let ssl_certificate := "/home/user-data/ssl/example.com/ssl_certificate.pem" in
  let csr_path :=
    "/home/user-data/ssl/example.com/certificate_signing_request.csr" in
  let w1 :=
    (@ensure_ssl_certificate_exists proxy_externals "example.com" ssl_key
       ssl_certificate csr_path box_env overlay_world).2 in
  @make_domain_config proxy_externals "example.com" sample_template
    box_env overlay_world
  = (inr ("example.com|"
          +:+ @get_web_root proxy_externals "example.com" box_env
                (disk overlay_world)
          +:+ "|" +:+ ssl_key +:+ "|" +:+ ssl_certificate
          +:+ LF +:+ "# ADDITIONAL DIRECTIVES HERE" +:+ LF
          +:+ TAB +:+ "location / {" +:+ LF
          +:+ TAB +:+ TAB +:+ "proxy_pass http://localhost:8080;" +:+ LF
          +:+ TAB +:+ "}" +:+ LF
          +:+ "tail"), w1).
Proof.
  intros ssl_key ssl_certificate csr_path w1.
  apply (@make_domain_config_sample_proxy proxy_externals box_env
           overlay_world w1 ssl_key ssl_certificate csr_path).
  - vm_compute; reflexivity.
  - vm_compute; reflexivity.
  - apply proxy_externals_overlay. vm_compute; reflexivity.
  - vm_compute; reflexivity.
  - vm_compute; reflexivity.
  - vm_compute; reflexivity.
  - vm_compute; reflexivity.
  - vm_compute; reflexivity.
  - vm_compute; reflexivity.
Defined.



Lemma do_web_update_writes_before_reload_witness :
  (@do_web_update failing_externals box_env ∅ ∅ template_world
   = (inl (CalledProcessError reload_command),
      mkWorld (<[nginx_conf_fn := File failing_text]> (disk template_world))
        (calls template_world ++ [reload_command]))
   ∧ (<[nginx_conf_fn := File failing_text]> (disk template_world))
       !! nginx_conf_fn = Some (File failing_text))
  ∧ @do_web_update quiet_externals box_env ∅ ∅ no_conf_dir_world
    = (inl (IOError nginx_conf_fn), no_conf_dir_world).
Proof.
  split.
  - pose proof (@do_web_update_writes_before_reload failing_externals box_env
                  ∅ ∅ template_world template_world failing_text false
                  (<[nginx_conf_fn := File failing_text]>
                     (disk template_world))) as Hthm.
    destruct Hthm as [Hwritten _].
    + vm_compute; reflexivity.
    + intros (stored & Hstored & _). vm_compute in Hstored.
      discriminate Hstored.
    + vm_compute; discriminate.
    + destruct Hwritten as (Hrun & Hfile & _).
      * vm_compute; reflexivity.
      * reflexivity.
      * reflexivity.
      * split; [exact Hrun | exact Hfile].
  - pose proof (@do_web_update_writes_before_reload quiet_externals box_env
                  ∅ ∅ no_conf_dir_world no_conf_dir_world quiet_text true ∅)
      as Hthm.
    destruct Hthm as [_ Hfailed].
    + vm_compute; reflexivity.
    + intros (stored & Hstored & _). vm_compute in Hstored.
      discriminate Hstored.
    + vm_compute; discriminate.
    + apply Hfailed. vm_compute; reflexivity.
Defined.

(** ** Further properties of the module *)

(** *** get_web_root *)

(** X1: the root returned by get_web_root is there on disk exactly when the
    domain's own directory or the default directory is: the fallback is
    returned without being checked. *)
Theorem get_web_root_exists `{Externals} (domain : string) env
    (d : gmap string node) :
  (os_path_exists (domain_web_root domain env) d = true
   → get_web_root domain env d = domain_web_root domain env)
  ∧ (os_path_exists (domain_web_root domain env) d = false
     → get_web_root domain env d = default_web_root env)
  ∧ os_path_exists (get_web_root domain env d) d
    = os_path_exists (domain_web_root domain env) d
      || os_path_exists (default_web_root env) d.
Proof.
  unfold get_web_root. fold (domain_web_root domain env).
  fold (default_web_root env).
  destruct (os_path_exists (domain_web_root domain env) d) eqn:He.
  - by rewrite He.
  - done.
Qed.

(** *** get_web_domains *)

(** X2: an override for a name that is neither the primary hostname nor a
    mail domain changes nothing in the list of web domains. *)
Theorem get_web_domains_unrelated_override env (mail_domains : gset string)
    (dns : gmap string dns_value) (x : string) (v : dns_value) :
  x ≠ PRIMARY_HOSTNAME env → x ∉ mail_domains →
  get_web_domains env mail_domains (<[x := v]> dns)
  = get_web_domains env mail_domains dns.
Proof.
  intros Hp Hm. unfold get_web_domains. f_equal. apply set_eq. intros y.
  rewrite !elem_of_foldl_dns_step.
  assert (y ∈ (∅ ∪ {[PRIMARY_HOSTNAME env]} ∪ mail_domains : gset string)
          → y ≠ x) as Hne.
  { intros Hy ->. rewrite !elem_of_union, elem_of_singleton in Hy.
    destruct Hy as [[Hy|Hy]|Hy]; [by apply elem_of_empty in Hy|done..]. }
  split; intros [Hy Hall]; (split; [done|]); specialize (Hne Hy);
    intros u Hu%elem_of_map_to_list; apply Hall, elem_of_map_to_list.
  - by rewrite lookup_insert_ne.
  - by rewrite lookup_insert_ne in Hu.
Qed.

Lemma get_web_domains_unrelated_override_witness :
  get_web_domains box_env {[ "a.org" ]}
    (<[ "elsewhere.net" := DnsStr "203.0.113.9" ]> dns_sample)
  = get_web_domains box_env {[ "a.org" ]} dns_sample.
Proof.
  apply (get_web_domains_unrelated_override box_env {[ "a.org" ]} dns_sample
           "elsewhere.net" (DnsStr "203.0.113.9")).
  - done.
  - intros Hin%elem_of_singleton. discriminate Hin.
Defined.

Lemma get_web_root_exists_witness :
  os_path_exists (@domain_web_root quiet_externals "a.org" box_env)
    {[ "/home/user-data/www/a.org" := Dir ]} = true
  ∧ @get_web_root quiet_externals "a.org" box_env
      {[ "/home/user-data/www/a.org" := Dir ]}
    = @domain_web_root quiet_externals "a.org" box_env.
Proof.
  assert (os_path_exists (@domain_web_root quiet_externals "a.org" box_env)
            {[ "/home/user-data/www/a.org" := Dir ]} = true) as Hex
    by (vm_compute; reflexivity).
  split; [exact Hex|].
  exact (proj1 (@get_web_root_exists quiet_externals "a.org" box_env
                  {[ "/home/user-data/www/a.org" := Dir ]}) Hex).
Defined.

(** X3: the removal loop yields the same set of domains in whatever order
    the entries of the DNS table are visited. *)
Theorem dns_removal_order_irrelevant (items1 items2 : list (string * dns_value))
    (domains : gset string) :
  items1 ≡ₚ items2 →
  foldl dns_step domains items1 = foldl dns_step domains items2.
Proof.
  intros Hperm. apply set_eq. intros y. rewrite !elem_of_foldl_dns_step.
  split; intros [Hy Hall]; (split; [done|]); intros v Hv; apply Hall.
  - by rewrite Hperm.
  - by rewrite <- Hperm.
Qed.

Lemma dns_removal_order_irrelevant_witness :
  foldl dns_step {[ "a.org"; "b.org" ]}
    [("a.org", DnsStr "203.0.113.7"); ("b.org", DnsStr "local")]
  = foldl dns_step {[ "a.org"; "b.org" ]}
      [("b.org", DnsStr "local"); ("a.org", DnsStr "203.0.113.7")].
Proof.
  apply (dns_removal_order_irrelevant
           [("a.org", DnsStr "203.0.113.7"); ("b.org", DnsStr "local")]
           [("b.org", DnsStr "local"); ("a.org", DnsStr "203.0.113.7")]).
  apply Permutation_swap.
Defined.

(** *** get_domain_ssl_files *)

Lemma join_step_neq (a b1 b2 : string) :
  starts_with_sep b1 = false → starts_with_sep b2 = false →
  b1 ≠ b2 → join_step a b1 ≠ join_step a b2.
Proof. intros H1 H2 Hne Heq. by apply Hne, (join_step_inj a). Qed.

Lemma under_domain_neq (x tail1 tail2 : string) :
  tail1 ≠ tail2 → "ssl/" +:+ x +:+ tail1 ≠ "ssl/" +:+ x +:+ tail2.
Proof.
  intros Hne Heq. apply Hne.
  apply (inj (String.app "ssl/")), (inj (String.app x)) in Heq. done.
Qed.

Lemma under_domain_longer (x tail flat : string) :
  (String.length flat < 4 + String.length tail)%nat →
  "ssl/" +:+ x +:+ tail ≠ flat.
Proof.
  intros Hlen Heq. apply (f_equal String.length) in Heq.
  rewrite !str_length_app in Heq. cbn in Heq. lia.
Qed.

(** X4: the key, the certificate and the CSR path that
    get_domain_ssl_files returns are three different paths, for every domain
    and whatever is on disk. *)
Theorem get_domain_ssl_files_distinct `{Externals} (domain : string) env
    (d : gmap string node) :
  let '(ssl_key, ssl_certificate, csr_path) :=
    get_domain_ssl_files domain env d in
  ssl_key ≠ ssl_certificate ∧ ssl_key ≠ csr_path ∧ ssl_certificate ≠ csr_path.
Proof.
  unfold get_domain_ssl_files, ssl_private_key_path,
    ssl_certificate_primary_path, ssl_csr_primary_path, alt_key_path,
    domain_certificate_path, domain_csr_path, os_path_join. cbn [foldl].
  destruct (decide (domain = PRIMARY_HOSTNAME env)) as [Hp|Hp].
  - rewrite (bool_decide_eq_false_2 (_ ≠ _)) by (intros Hn; by apply Hn).
    rewrite !(bool_decide_eq_true_2 (domain = _)) by done. cbn.
    repeat split; by apply join_step_neq.
  - rewrite (bool_decide_eq_true_2 (_ ≠ _)) by done.
    rewrite !(bool_decide_eq_false_2 (domain = _)) by done.
    destruct (os_path_exists _ d); cbn.
    + repeat split; apply join_step_neq; try done; by apply under_domain_neq.
    + case_bool_decide; repeat split; apply join_step_neq; try done.
      all: first [ by apply under_domain_neq
                 | apply not_eq_sym; apply under_domain_longer; cbn; lia
                 | apply under_domain_longer; cbn; lia ].
Qed.

(** *** make_domain_config *)

Section rendering_more.
Context `{Externals}.

Lemma unchanged_bind {A B} (m : M A) (f : A → M B) :
  (∀ w, (m w).2 = w) → (∀ x w, (f x w).2 = w) → ∀ w, ((m ≫= f) w).2 = w.
Proof.
  intros Hm Hf w. unfold mbind, M_bind. specialize (Hm w).
  destruct (m w) as [[e|x] w']; cbn in Hm; subst w'; [done|]. apply Hf.
Qed.

Lemma subscript_world container key (w : World) :
  (subscript container key w).2 = w.
Proof. unfold subscript. by destruct (py_getitem container key). Qed.

Lemma append_to_second_world parts block (w : World) :
  (append_to_second parts block w).2 = w.
Proof. unfold append_to_second. by destruct (parts !! 1). Qed.

Lemma add_customizations_world domain env parts (w : World) :
  (add_customizations domain env parts w).2 = w.
Proof.
  revert w. unfold add_customizations.
  apply unchanged_bind; [done|]. intros d.
  destruct (os_path_exists _ d); [|done].
  apply unchanged_bind.
  { intros w. unfold read_file. by destruct (disk w !! _) as [[]|]. }
  intros text. destruct (rtyaml_load text) as [yaml|]; [|done].
  destruct (py_in domain yaml) as [[]|]; [|done..].
  apply unchanged_bind; [apply subscript_world|]. intros directives.
  destruct (py_in "proxy" directives) as [[]|]; [|done..].
  apply unchanged_bind; [apply subscript_world|]. intros value.
  apply append_to_second_world.
Qed.

Lemma make_domain_config_world (domain template : string) env (w : World) :
  let '(ssl_key, ssl_certificate, csr_path) :=
    get_domain_ssl_files domain env (disk w) in
  (make_domain_config domain template env w).2
  = (ensure_ssl_certificate_exists domain ssl_key ssl_certificate csr_path
       env w).2.
Proof.
  unfold make_domain_config.
  unfold mbind at 1. unfold M_bind at 1. unfold get_disk at 1.
  destruct (get_domain_ssl_files domain env (disk w))
    as [[ssl_key ssl_certificate] csr_path].
  unfold mbind at 1. unfold M_bind at 1.
  destruct (ensure_ssl_certificate_exists _ _ _ _ _ w) as [[e|[]] w1];
    [done|].
  unfold mbind, M_bind.
  pose proof (add_customizations_world domain env
                (re_split_group directives_marker
                   (substitute template domain
                      (get_web_root domain env (disk w)) ssl_key
                      ssl_certificate)) w1) as Hw.
  by destruct (add_customizations _ _ _ w1) as [[e|parts] w2].
Qed.

(** X5: whatever make_domain_config does to the world, the certificate step
    did: it ends in the world ensure_ssl_certificate_exists leaves, whether
    it returns or raises.  For the primary hostname that is the world it
    started in. *)
Theorem make_domain_config_effects (domain template : string) env (w : World) :
  (let '(ssl_key, ssl_certificate, csr_path) :=
     get_domain_ssl_files domain env (disk w) in
   (make_domain_config domain template env w).2
   = (ensure_ssl_certificate_exists domain ssl_key ssl_certificate csr_path
        env w).2)
  ∧ (domain = PRIMARY_HOSTNAME env
     → (make_domain_config domain template env w).2 = w).
Proof.
  pose proof (make_domain_config_world domain template env w) as Hgen.
  split; [exact Hgen|]. intros Hp.
  destruct (get_domain_ssl_files domain env (disk w))
    as [[ssl_key ssl_certificate] csr_path].
  rewrite Hgen. rewrite ensure_ssl_certificate_exists_skip; [done|].
  by intros [Hne _].
Qed.

Lemma make_domain_config_with_proxy
    (domain template : string) env (w w1 : World)
    ssl_key ssl_certificate csr_path target :
  get_domain_ssl_files domain env (disk w)
  = (ssl_key, ssl_certificate, csr_path) →
  ensure_ssl_certificate_exists domain ssl_key ssl_certificate csr_path env w
  = (inr tt, w1) →
  overlay_has_proxy domain env (disk w1) target →
  str_contains directives_marker
    (substitute template domain (get_web_root domain env (disk w))
       ssl_key ssl_certificate) = true →
  ∃ pre post,
    substitute template domain (get_web_root domain env (disk w))
      ssl_key ssl_certificate
    = pre +:+ directives_marker +:+ post
    ∧ no_match_before directives_marker
        (pre +:+ directives_marker +:+ post) (String.length pre)
    ∧ make_domain_config domain template env w
      = (inr (pre +:+ directives_marker +:+ proxy_block target +:+ post), w1).
Proof.
  intros Hfiles Hensure Hproxy Hmarker.
  rewrite (make_domain_config_provisioned _ _ _ _ _ _ _ _ Hfiles Hensure).
  rewrite (add_customizations_proxy _ _ _ _ _ Hproxy).
  set (s := substitute _ _ _ _ _) in *.
  destruct (re_split_go_first directives_marker s) as
    (pre & post & Hs & Hfirst & Hsplit);
    [apply directives_marker_nonempty | done |].
  exists pre, post. split; [exact Hs|]. split; [by rewrite <- Hs|].
  unfold re_split_group. rewrite Hsplit, str_app_nil_l.
  rewrite append_to_second_cons, !str_concat_cons.
  rewrite concat_re_split_go by apply directives_marker_nonempty.
  by rewrite str_app_nil_l, str_app_assoc.
Qed.

(** X6: for any template, domain and proxy target: once the certificate
    step has returned, if the substituted template has a marker line, the
    proxy block is put right after the first marker line and nowhere else;
    the text before and after it is the substituted template. *)
Theorem make_domain_config_proxy_after_first_marker
    (domain template : string) env (w w1 : World)
    ssl_key ssl_certificate csr_path target :
  get_domain_ssl_files domain env (disk w)
  = (ssl_key, ssl_certificate, csr_path) →
  ensure_ssl_certificate_exists domain ssl_key ssl_certificate csr_path env w
  = (inr tt, w1) →
  overlay_has_proxy domain env (disk w1) target →
  str_contains directives_marker
    (substitute template domain (get_web_root domain env (disk w))
       ssl_key ssl_certificate) = true →
  ∃ pre post,
    substitute template domain (get_web_root domain env (disk w))
      ssl_key ssl_certificate
    = pre +:+ directives_marker +:+ post
    ∧ no_match_before directives_marker
        (pre +:+ directives_marker +:+ post) (String.length pre)
    ∧ make_domain_config domain template env w
      = (inr (pre +:+ directives_marker +:+ proxy_block target +:+ post), w1).
Proof. apply make_domain_config_with_proxy. Qed.

(** When the customizations step returns, the overlay had no proxy target
    for the domain, or it had one and there was a second part to add it
    to. *)
Lemma add_customizations_returns domain env parts parts' (w w' : World) :
  add_customizations domain env parts w = (inr parts', w') →
  overlay_has_no_proxy domain env (disk w)
  ∨ ((∃ target, overlay_has_proxy domain env (disk w) target)
     ∧ is_Some (parts !! 1)).
Proof.
  unfold add_customizations, overlay_has_no_proxy, overlay_has_proxy.
  fold (custom_yaml_path env).
  unfold mbind, M_bind, get_disk, read_file, os_path_exists, subscript.
  destruct (disk w !! custom_yaml_path env) as [[text|]|] eqn:Hfile.
  - rewrite bool_decide_eq_true_2 by eauto. cbv beta iota. rewrite Hfile.
    destruct (rtyaml_load (universal_newlines text)) as [yaml|] eqn:Hload;
      [|done].
    destruct (py_in domain yaml) as [[]|] eqn:Hdom;
      [|intros _; left; right; exists text, yaml; auto|done].
    destruct (py_getitem yaml domain) as [e|directives] eqn:Hentry; [done|].
    unfold mret, M_ret. cbv beta iota.
    destruct (py_in "proxy" directives) as [[]|] eqn:Hproxy;
      [|intros _; left; right; exists text, yaml; eauto 10|done].
    destruct (py_getitem directives "proxy") as [e|value] eqn:Hvalue; [done|].
    cbv beta iota. unfold append_to_second.
    destruct (parts !! 1) as [second|]; [|done]. intros _. right.
    split; [|eauto]. exists (percent_s value), text, yaml, directives, value.
    done.
  - rewrite bool_decide_eq_true_2 by eauto. cbv beta iota. by rewrite Hfile.
  - intros _. left. by left.
Qed.

(** X7: once the certificate step has returned, make_domain_config returns
    a configuration exactly when the overlay gives the domain no proxy
    target (there is no overlay file, or its document does not have the
    domain, or the domain's entry does not have "proxy"), or gives it one and
    the substituted template has a marker line.  In every other case - a
    directory at the overlay path, a text that rtyaml.load rejects, a
    document or an entry that cannot be searched or subscripted, no marker
    line for the block - it raises. *)
Theorem make_domain_config_returns_iff (domain template : string) env
    (w w1 : World) ssl_key ssl_certificate csr_path :
  get_domain_ssl_files domain env (disk w)
  = (ssl_key, ssl_certificate, csr_path) →
  ensure_ssl_certificate_exists domain ssl_key ssl_certificate csr_path env w
  = (inr tt, w1) →
  (∃ nginx_conf,
     make_domain_config domain template env w = (inr nginx_conf, w1))
  ↔ overlay_has_no_proxy domain env (disk w1)
    ∨ ((∃ target, overlay_has_proxy domain env (disk w1) target)
       ∧ str_contains directives_marker
           (substitute template domain (get_web_root domain env (disk w))
              ssl_key ssl_certificate) = true).
Proof.
  intros Hfiles Hensure. split.
  - intros [nginx_conf Hret].
    rewrite (make_domain_config_provisioned _ _ _ _ _ _ _ _ Hfiles Hensure)
      in Hret.
    destruct (add_customizations _ _ _ w1) as [[e|parts'] w2] eqn:Hadd;
      [done|].
    apply add_customizations_returns in Hadd as [Hnone|[Hproxy Hsecond]];
      [by left|].
    right. split; [done|].
    destruct (str_contains directives_marker _) eqn:Hmarker; [done|].
    unfold re_split_group in Hsecond.
    rewrite re_split_go_absent in Hsecond by done. by destruct Hsecond.
  - intros [Hnone|[[target Hproxy] Hmarker]].
    + eexists. by apply (make_domain_config_plain _ _ _ _ _ _ _ _ Hfiles Hensure).
    + destruct (make_domain_config_with_proxy _ _ _ _ _ _ _ _ _ Hfiles Hensure
                  Hproxy Hmarker) as (pre & post & _ & _ & Hret).
      eauto.
Qed.

End rendering_more.

(** *** do_web_update *)

Lemma only_runs_ret {A} P (x : A) : only_runs P (mret x).
Proof. intros w. exists []. by rewrite app_nil_r. Qed.

Lemma only_runs_raise {A} P (e : exn) : only_runs P (raise (A:=A) e).
Proof. intros w. exists []. by rewrite app_nil_r. Qed.

Lemma only_runs_get_disk P : only_runs P get_disk.
Proof. intros w. exists []. by rewrite app_nil_r. Qed.

Lemma only_runs_read_file P (p : string) : only_runs P (read_file p).
Proof.
  intros w. exists []. rewrite app_nil_r. unfold read_file.
  by destruct (disk w !! p) as [[]|].
Qed.

Lemma only_runs_bind {A B} P (m : M A) (f : A → M B) :
  only_runs P m → (∀ x, only_runs P (f x)) → only_runs P (m ≫= f).
Proof.
  intros Hm Hf w. unfold mbind, M_bind.
  destruct (Hm w) as (l1 & Hl1 & HP1). destruct (m w) as [[e|x] w'].
  - by exists l1.
  - destruct (Hf x w') as (l2 & Hl2 & HP2). exists (l1 ++ l2)%list.
    cbn in Hl1. rewrite Hl2, Hl1, <- app_assoc. split; [done|].
    by apply Forall_app.
Qed.

Section update.
Context `{Externals}.

Lemma only_runs_shell_check_call (P : list string → Prop) argv :
  P argv → only_runs P (shell_check_call argv).
Proof.
  intros HP w. exists [argv]. unfold shell_check_call.
  destruct (run_command argv (disk w)) as [[] d]; cbn; split; try done;
    by apply Forall_singleton.
Qed.

Lemma only_runs_makedirs P (p : string) : only_runs P (makedirs p).
Proof.
  intros w. exists []. rewrite app_nil_r. unfold makedirs.
  by destruct (os_makedirs p (disk w)).
Qed.

Lemma only_runs_ensure_ssl_certificate_exists
    domain ssl_key ssl_certificate csr_path env :
  only_runs is_openssl
    (ensure_ssl_certificate_exists domain ssl_key ssl_certificate csr_path env).
Proof.
  unfold ensure_ssl_certificate_exists.
  repeat case_bool_decide; try apply only_runs_ret.
  apply only_runs_bind; [apply only_runs_get_disk|]. intros d.
  destruct (os_path_exists ssl_certificate d); [apply only_runs_ret|].
  apply only_runs_bind; [apply only_runs_makedirs|]. intros _.
  apply only_runs_bind; [by apply only_runs_shell_check_call|]. intros _.
  by apply only_runs_shell_check_call.
Qed.

Lemma only_runs_make_domain_config domain template env :
  only_runs is_openssl (make_domain_config domain template env).
Proof.
  intros w.
  pose proof (make_domain_config_world domain template env w) as Hw.
  destruct (get_domain_ssl_files domain env (disk w))
    as [[ssl_key ssl_certificate] csr_path].
  rewrite Hw. apply only_runs_ensure_ssl_certificate_exists.
Qed.

Lemma only_runs_add_domain_configs domains template env nginx_conf :
  only_runs is_openssl (add_domain_configs domains template env nginx_conf).
Proof.
  revert nginx_conf.
  induction domains as [|domain rest IH]; intros nginx_conf; cbn.
  - apply only_runs_ret.
  - apply only_runs_bind; [apply only_runs_make_domain_config|].
    intros block. apply IH.
Qed.

Lemma only_runs_build_nginx_conf env mail_domains dns :
  only_runs is_openssl (build_nginx_conf env mail_domains dns).
Proof.
  unfold build_nginx_conf.
  apply only_runs_bind; [apply only_runs_read_file|]. intros nginx_conf.
  apply only_runs_bind; [apply only_runs_read_file|]. intros template.
  apply only_runs_add_domain_configs.
Qed.

Lemma install_nginx_conf_calls (nginx_conf : string) (w : World) :
  calls (install_nginx_conf nginx_conf w).2 = calls w
  ∨ calls (install_nginx_conf nginx_conf w).2 = (calls w ++ [reload_command])%list.
Proof.
  destruct (conf_is_current_dec nginx_conf (disk w)) as [Hsame|Hdiff].
  { left. by rewrite install_nginx_conf_unchanged. }
  destruct (decide (disk w !! nginx_conf_fn = Some Dir)) as [Hdir|Hnodir].
  - left. by rewrite install_nginx_conf_directory.
  - rewrite install_nginx_conf_changed by done.
    destruct (parent_is_dir _ _ && os_writable _ _); [|by left].
    right. by destruct (run_command _ _) as [ok d].
Qed.

(** X8: do_web_update only ever adds to the log of external commands, and
    what it adds is a run of openssl invocations followed by at most one
    reload of nginx, which is then the last command: it runs nothing else,
    and nothing after the reload. *)
Theorem do_web_update_commands env mail_domains dns (w : World) :
  ∃ l : list (list string),
    calls (do_web_update env mail_domains dns w).2 = (calls w ++ l)%list
    ∧ (Forall is_openssl l
       ∨ ∃ l0, l = (l0 ++ [reload_command])%list ∧ Forall is_openssl l0).
Proof.
  destruct (only_runs_build_nginx_conf env mail_domains dns w)
    as (l0 & Hl0 & HP0).
  unfold do_web_update. unfold mbind at 1. unfold M_bind at 1.
  destruct (build_nginx_conf env mail_domains dns w) as [[e|nginx_conf] wb].
  - exists l0. split; [done|]. by left.
  - cbn in Hl0.
    destruct (install_nginx_conf_calls nginx_conf wb) as [Hsame|Hreload].
    + exists l0. rewrite Hsame, Hl0. split; [done|]. by left.
    + exists (l0 ++ [reload_command])%list.
      rewrite Hreload, Hl0, <- app_assoc. split; [done|]. right. by exists l0.
Qed.

(** X9: when one of the two files next to the module cannot be read,
    do_web_update raises the read error for that file and has done nothing:
    no command has run and the disk is as it was. *)
Theorem do_web_update_missing_template env mail_domains dns (w : World) :
  ((∀ c, disk w !! nginx_top_conf_path ≠ Some (File c)) →
   do_web_update env mail_domains dns w
   = (inl (IOError nginx_top_conf_path), w))
  ∧ (∀ top, disk w !! nginx_top_conf_path = Some (File top) →
       (∀ c, disk w !! nginx_template_path ≠ Some (File c)) →
       do_web_update env mail_domains dns w
       = (inl (IOError nginx_template_path), w)).
Proof.
  unfold do_web_update, build_nginx_conf.
  fold nginx_top_conf_path. fold nginx_template_path.
  unfold mbind, M_bind, read_file. split.
  - intros Hno. destruct (disk w !! nginx_top_conf_path) as [[c|]|]; [|done..].
    by destruct (Hno c).
  - intros top -> Hno.
    destruct (disk w !! nginx_template_path) as [[c|]|]; [|done..].
    by destruct (Hno c).
Qed.

Lemma add_domain_configs_prefix domains template env nginx_conf
    (w w' : World) result :
  add_domain_configs domains template env nginx_conf w = (inr result, w') →
  ∃ blocks, result = nginx_conf +:+ blocks.
Proof.
  revert nginx_conf w. induction domains as [|domain rest IH];
    intros nginx_conf w; cbn.
  - intros [= <- <-]. exists "". by rewrite str_app_nil_r.
  - unfold mbind, M_bind.
    destruct (make_domain_config domain template env w) as [[e|block] w1];
      [done|].
    intros (blocks & ->)%IH. exists (block +:+ blocks).
    by rewrite str_app_assoc.
Qed.

(** X10: the text do_web_update builds always begins with nginx-top.conf
    as it is read (line ends as line feeds), the blocks of the domains coming
    after it. *)
Theorem build_nginx_conf_starts_with_top env mail_domains dns (w wb : World)
    nginx_conf :
  build_nginx_conf env mail_domains dns w = (inr nginx_conf, wb) →
  ∃ top blocks,
    disk w !! nginx_top_conf_path = Some (File top)
    ∧ nginx_conf = universal_newlines top +:+ blocks.
Proof.
  unfold build_nginx_conf. fold nginx_top_conf_path. fold nginx_template_path.
  unfold mbind, M_bind, read_file.
  destruct (disk w !! nginx_top_conf_path) as [[top|]|]; [|done..].
  destruct (disk w !! nginx_template_path) as [[template|]|]; [|done..].
  intros (blocks & ->)%add_domain_configs_prefix. by exists top, blocks.
Qed.

Lemma get_web_domains_nil env (dns : gmap string dns_value) v :
  dns !! PRIMARY_HOSTNAME env = Some v → points_elsewhere v = true →
  get_web_domains env ∅ dns = [].
Proof.
  intros Hv Hp. apply elem_of_nil_inv. intros x.
  unfold get_web_domains.
  rewrite elem_of_sort_domains, elem_of_foldl_dns_step.
  rewrite !elem_of_union, elem_of_singleton. intros [Hx Hall].
  destruct Hx as [[Hx| ->]|Hx]; [by apply elem_of_empty in Hx| |
                                  by apply elem_of_empty in Hx].
  specialize (Hall v). rewrite Hp in Hall. discriminate Hall.
  by apply elem_of_map_to_list.
Qed.

(** X11: on a box without mail domains whose own hostname is overridden to
    another machine, no domain is left to serve: the text built is
    nginx-top.conf as it is read (line ends as line feeds) and nothing more,
    and building it runs no command and changes nothing. *)
Theorem build_nginx_conf_no_domains env (dns : gmap string dns_value) v
    (w : World) top template :
  dns !! PRIMARY_HOSTNAME env = Some v → points_elsewhere v = true →
  disk w !! nginx_top_conf_path = Some (File top) →
  disk w !! nginx_template_path = Some (File template) →
  build_nginx_conf env ∅ dns w = (inr (universal_newlines top), w).
Proof.
  intros Hv Hp Htop Htemplate. unfold build_nginx_conf.
  fold nginx_top_conf_path. fold nginx_template_path.
  unfold mbind, M_bind, read_file. rewrite Htop, Htemplate.
  by rewrite (get_web_domains_nil env dns v).
Qed.

Lemma keeps_write_file (p q c : string) : p ≠ q → keeps p (write_file q c).
Proof.
  intros Hne w _. unfold write_file.
  destruct (disk w !! q) as [[]|]; try done;
    destruct (parent_is_dir _ _ && os_writable _ _); cbn; try done;
    by rewrite lookup_insert_ne.
Qed.

(** X12: do_web_update writes to no path but the configuration file: with
    external programs that leave a path alone, whatever is at that path
    before do_web_update is there afterwards, the two template files
    included. *)
Theorem do_web_update_keeps (p : string) env mail_domains dns :
  externals_keep p → p ≠ nginx_conf_fn →
  keeps p (do_web_update env mail_domains dns).
Proof.
  intros Hkeep Hne. unfold do_web_update.
  apply keeps_bind; [by apply keeps_build_nginx_conf|]. intros nginx_conf.
  unfold install_nginx_conf.
  apply keeps_bind; [apply keeps_get_disk|]. intros d.
  apply keeps_bind.
  { destruct (os_path_exists nginx_conf_fn d); [|apply keeps_ret].
    apply keeps_bind; [apply keeps_read_file|]. intros old. apply keeps_ret. }
  intros [|]; [apply keeps_ret|].
  apply keeps_bind; [by apply keeps_write_file|]. intros _.
  apply keeps_bind; [by apply keeps_shell_check_call|]. intros _.
  apply keeps_ret.
Qed.

(** X13: when a directory is where the configuration file should be,
    do_web_update raises the read error after building the text: nothing is
    written and nginx is not reloaded. *)
Theorem do_web_update_conf_is_directory env mail_domains dns (w wb : World)
    nginx_conf :
  build_nginx_conf env mail_domains dns w = (inr nginx_conf, wb) →
  disk wb !! nginx_conf_fn = Some Dir →
  do_web_update env mail_domains dns w = (inl (IOError nginx_conf_fn), wb).
Proof.
  intros Hb Hdir. rewrite (do_web_update_built _ _ _ _ _ _ Hb).
  by apply install_nginx_conf_directory.
Qed.

End update.

(** *** The further properties on the concrete scenarios *)

Lemma make_domain_config_effects_witness :
  (@make_domain_config quiet_externals "box.example.com" sample_template
     box_env template_world).2 = template_world.
Proof.
  apply (proj2 (@make_domain_config_effects quiet_externals "box.example.com"
                  sample_template box_env template_world)).
  reflexivity.
Defined.

Lemma make_domain_config_proxy_after_first_marker_witness :
  let ssl_key := "/home/user-data/ssl/ssl_private_key.pem" in
  let ssl_certificate := "/home/user-data/ssl/example.com/ssl_certificate.pem" in
  let csr_path :=
    "/home/user-data/ssl/example.com/certificate_signing_request.csr" in
  let w1 :=
    (@ensure_ssl_certificate_exists proxy_externals "example.com" ssl_key
       ssl_certificate csr_path box_env overlay_world).2 in
  ∃ pre post,
    substitute sample_template "example.com"
      (@get_web_root proxy_externals "example.com" box_env (disk overlay_world))
      ssl_key ssl_certificate
    = pre +:+ directives_marker +:+ post
    ∧ no_match_before directives_marker
        (pre +:+ directives_marker +:+ post) (String.length pre)
    ∧ @make_domain_config proxy_externals "example.com" sample_template
        box_env overlay_world
      = (inr (pre +:+ directives_marker
              +:+ proxy_block "http://localhost:8080" +:+ post), w1).
Proof.
  intros ssl_key ssl_certificate csr_path w1.
  apply (@make_domain_config_proxy_after_first_marker proxy_externals
           "example.com" sample_template box_env overlay_world w1 ssl_key
           ssl_certificate csr_path "http://localhost:8080").
  - vm_compute; reflexivity.
  - vm_compute; reflexivity.
  - apply proxy_externals_overlay. vm_compute; reflexivity.
  - vm_compute; reflexivity.
Defined.

Lemma make_domain_config_returns_iff_witness :
  (∃ nginx_conf,
     @make_domain_config quiet_externals "box.example.com" sample_template
       box_env overlay_dir_world = (inr nginx_conf, overlay_dir_world))
  ↔ @overlay_has_no_proxy quiet_externals "box.example.com" box_env
      (disk overlay_dir_world)
    ∨ ((∃ target, @overlay_has_proxy quiet_externals "box.example.com"
                    box_env (disk overlay_dir_world) target)
       ∧ str_contains directives_marker
           (substitute sample_template "box.example.com"
              (@get_web_root quiet_externals "box.example.com" box_env
                 (disk overlay_dir_world))
              "/home/user-data/ssl/ssl_private_key.pem"
              "/home/user-data/ssl/ssl_certificate.pem") = true).
Proof.
  apply (@make_domain_config_returns_iff quiet_externals "box.example.com"
           sample_template box_env overlay_dir_world overlay_dir_world
           "/home/user-data/ssl/ssl_private_key.pem"
           "/home/user-data/ssl/ssl_certificate.pem"
           "/home/user-data/ssl/ssl_cert_sign_req.csr").
  - vm_compute; reflexivity.
  - vm_compute; reflexivity.
Defined.

Lemma do_web_update_missing_template_witness :
  @do_web_update quiet_externals box_env ∅ ∅ empty_world
  = (inl (IOError (@nginx_top_conf_path quiet_externals)), empty_world).
Proof.
  apply (proj1 (@do_web_update_missing_template quiet_externals box_env ∅ ∅
                  empty_world)).
  intros c. vm_compute. discriminate.
Defined.

Lemma build_nginx_conf_starts_with_top_witness :
  ∃ top blocks,
    disk template_world !! @nginx_top_conf_path quiet_externals
    = Some (File top)
    ∧ quiet_text = universal_newlines top +:+ blocks.
Proof.
  pose proof (@build_nginx_conf_starts_with_top quiet_externals box_env ∅ ∅
                template_world template_world quiet_text) as Hthm.
  apply Hthm. vm_compute; reflexivity.
Defined.

Lemma build_nginx_conf_no_domains_witness :
  @build_nginx_conf quiet_externals box_env ∅ dns_primary_elsewhere
    template_world
  = (inr (universal_newlines ("top" +:+ LF)), template_world).
Proof.
  pose proof (@build_nginx_conf_no_domains quiet_externals box_env
                dns_primary_elsewhere (DnsStr "203.0.113.7") template_world
                ("top" +:+ LF) sample_template) as Hthm.
  apply Hthm.
  - vm_compute; reflexivity.
  - vm_compute; reflexivity.
  - vm_compute; reflexivity.
  - vm_compute; reflexivity.
Defined.

Lemma do_web_update_keeps_witness :
  disk (@do_web_update quiet_externals box_env ∅ ∅ template_world).2
    !! @nginx_template_path quiet_externals
  = disk template_world !! @nginx_template_path quiet_externals.
Proof.
  pose proof (@do_web_update_keeps quiet_externals
                (@nginx_template_path quiet_externals) box_env ∅ ∅) as Hthm.
  apply Hthm.
  - apply quiet_externals_keep.
  - vm_compute. discriminate.
  - vm_compute. eauto.
Defined.

Lemma do_web_update_conf_is_directory_witness :
  @do_web_update quiet_externals box_env ∅ ∅ conf_dir_world
  = (inl (IOError nginx_conf_fn), conf_dir_world).
Proof.
  pose proof (@do_web_update_conf_is_directory quiet_externals box_env ∅ ∅
                conf_dir_world conf_dir_world quiet_text) as Hthm.
  apply Hthm.
  - vm_compute; reflexivity.
  - vm_compute; reflexivity.
Defined.

(** X14: a template that has none of the four placeholders comes back from
    make_domain_config character for character, marker lines included, once
    the certificate step has returned and the overlay gives the domain no
    proxy target. *)
Theorem make_domain_config_static_template `{Externals}
    (domain template : string) env (w w1 : World)
    ssl_key ssl_certificate csr_path :
  get_domain_ssl_files domain env (disk w)
  = (ssl_key, ssl_certificate, csr_path) →
  ensure_ssl_certificate_exists domain ssl_key ssl_certificate csr_path env w
  = (inr tt, w1) →
  overlay_has_no_proxy domain env (disk w1) →
  str_contains "$HOSTNAME" template = false →
  str_contains "$ROOT" template = false →
  str_contains "$SSL_KEY" template = false →
  str_contains "$SSL_CERTIFICATE" template = false →
  make_domain_config domain template env w = (inr template, w1).
Proof.
  intros Hfiles Hensure Hnone H1 H2 H3 H4.
  rewrite (make_domain_config_plain _ _ _ _ _ _ _ _ Hfiles Hensure Hnone).
  unfold substitute.
  rewrite (str_replace_absent _ "$HOSTNAME") by done.
  rewrite (str_replace_absent _ "$ROOT") by done.
  rewrite (str_replace_absent _ "$SSL_KEY") by done.
  by rewrite (str_replace_absent _ "$SSL_CERTIFICATE") by done.
Qed.

Lemma make_domain_config_static_template_witness :
  @make_domain_config quiet_externals "box.example.com" static_template
    box_env empty_world
  = (inr static_template, empty_world).
Proof.
  pose proof (@make_domain_config_static_template quiet_externals
                "box.example.com" static_template box_env empty_world
                empty_world
                "/home/user-data/ssl/ssl_private_key.pem"
                "/home/user-data/ssl/ssl_certificate.pem"
                "/home/user-data/ssl/ssl_cert_sign_req.csr") as Hthm.
  apply Hthm.
  - vm_compute; reflexivity.
  - vm_compute; reflexivity.
  - left. vm_compute; reflexivity.
  - vm_compute; reflexivity.
  - vm_compute; reflexivity.
  - vm_compute; reflexivity.
  - vm_compute; reflexivity.
Defined.
